(** * Loan-application chaincode: a shallow embedding of [main.go]

    The handler stores, fetches and updates one record type in the key-value
    ledger that the hosting platform exposes through
    [shim.ChaincodeStubInterface], checks a certificate attribute before a
    creation and sets an event after each mutation.

    Conventions of the embedding:
    - a Go [string] is a [string]; a Go [[]byte] is a [ByteSlice], whose
      [None] is the [nil] slice; [[]byte(s)] and [string(b)] are
      [bytes_of] and [string_of];
    - a Go result pair [([]byte, error)] is a pair of options, [None] in the
      second component being the [nil] error;
    - the stub is threaded explicitly: an operation that mutates the ledger
      returns the new stub;
    - calls to the package-level [logger] write to the peer's log only and
      are left out;
    - three names of the source resolve to nothing: [errors.Name] in
      [Invoke], [loanAppId] in the update and the type [loanApplication];
      they are read as [errors.New], [loanAppID] and [LoanApplication];
    - [Invoke] has no [return] after its [if]; an invocation that gets there
      yields no result, which is [None] in the result of [Invoke]. *)

From Stdlib Require Import ZArith String Ascii List.
From Stdlib Require Import Strings.Byte DecimalString DecimalFacts DecimalPos DecimalZ.
From stdpp Require Import gmap strings.

Local Open Scope string_scope.

(** ** Values *)

Abbreviation bytes := (list byte).

(** A Go [[]byte]; [None] is [nil]. *)
Definition ByteSlice : Type := option bytes.

(** [[]byte(s)] *)
Definition bytes_of (s : string) : ByteSlice := Some (list_byte_of_string s).

(** The content of a slice; [nil] has length zero. *)
Definition content (b : ByteSlice) : bytes := default [] b.

(** [string(b)] *)
Definition string_of (b : ByteSlice) : string := string_of_list_byte (content b).

(** Go [error] values met by the handler: the ones it builds itself with
    [errors.New], and the ones its collaborators hand back. *)
Inductive error : Type :=
  | errors_New (text : string)
  | NotFound (name : string)
  | WriteFailed (name : string)
  | MalformedRecord (text : string).

(** [err.Error()] *)
Definition Error (err : error) : string :=
  match err with
  | errors_New text => text
  | NotFound name => "NotFound: " +:+ name
  | WriteFailed name => "WriteFailed: " +:+ name
  | MalformedRecord text => text
  end.

(** ** Schemas *)

Record PersonalInfo : Type := mkPersonalInfo {
  Firstname : string;
  Lastname : string;
  DOB : string;
  Email : string;
  Mobile : string
}.

Record FinancialInfo : Type := mkFinancialInfo {
  MonthlySalary : Z;
  MonthlyRent : Z;
  OtherExpenditure : Z;
  MonthlyLoanPayment : Z
}.

Record LoanApplication : Type := mkLoanApplication {
  ID : string;
  PropertyID : string;
  LandID : string;
  PermitID : string;
  BuyerID : string;
  SalesContractID : string;
  PersonalInfo_ : PersonalInfo;
  FinancialInfo_ : FinancialInfo;
  Status : string;
  RequestedAmount : Z;
  FairMarketValue : Z;
  ApprovedAmount : Z;
  ReviewerID : string;
  LastModifiedDate : string
}.

Record customEvent : Type := mkCustomEvent {
  Type_ : string;
  Decription : string
}.

(** The zero value of [var loanApplication LoanApplication]. *)
Definition zeroLoanApplication : LoanApplication :=
  mkLoanApplication "" "" "" "" "" ""
    (mkPersonalInfo "" "" "" "" "") (mkFinancialInfo 0 0 0 0)
    "" 0 0 0 "" "".

(** [loanApplication.Status = status] *)
Definition set_Status (la : LoanApplication) (status : string) : LoanApplication :=
  mkLoanApplication (ID la) (PropertyID la) (LandID la) (PermitID la) (BuyerID la)
    (SalesContractID la) (PersonalInfo_ la) (FinancialInfo_ la)
    status (RequestedAmount la) (FairMarketValue la) (ApprovedAmount la)
    (ReviewerID la) (LastModifiedDate la).

(** ** Collaborators *)

(** The four operations of [shim.ChaincodeStubInterface] that the handler
    calls. *)
Class ChaincodeStubInterface (S : Type) : Type := {
  GetState : S -> string -> ByteSlice * option error;
  PutState : S -> string -> ByteSlice -> S * option error;
  SetEvent : S -> string -> ByteSlice -> S * option error;
  ReadCertAttribute : S -> string -> ByteSlice * option error
}.

(** [encoding/json] at type [LoanApplication]: [json.Marshal(&v)] and
    [json.Unmarshal(data, &v)], the latter returning the struct as it left
    it. *)
Class Codec : Type := {
  json_Marshal : LoanApplication -> ByteSlice * option error;
  json_Unmarshal : ByteSlice -> LoanApplication -> LoanApplication * option error
}.

(** ** The handler *)

Section Handler.
Context {S : Type} {stub_ops : ChaincodeStubInterface S} {codec : Codec}.

(** func GetCertAttribute *)
Definition GetCertAttribute (stub : S) (attributeName : string)
  : string * option error :=
  let '(attr, err) := ReadCertAttribute stub attributeName in
  match err with
  | Some err =>
      ("", Some (errors_New ("Couldn't get attribute " +:+ attributeName
                             +:+ ". Error: " +:+ Error err)))
  | None => (string_of attr, None)
  end.

(** func CreateLoanApplication *)
Definition CreateLoanApplication (stub : S) (args : list string)
  : S * (ByteSlice * option error) :=
  match args with
  | loanAppID :: loanAppInput :: _ =>
      let '(stub, err) := PutState stub loanAppID (bytes_of loanAppInput) in
      match err with
      | Some err => (stub, (None, Some err))
      | None =>
          let customEvent :=
            "{eventType: 'loanApplicationCreation', description: '"
            +:+ loanAppID +:+ " Successfully created'}" in
          let '(stub, err) := SetEvent stub "evtSender" (bytes_of customEvent) in
          match err with
          | Some err => (stub, (None, Some err))
          | None => (stub, (None, None))
          end
      end
  | _ => (stub, (None, Some (errors_New "Expected at least 2 arguments")))
  end.

(** func GetLoanApplication *)
Definition GetLoanApplication (stub : S) (args : list string)
  : S * (ByteSlice * option error) :=
  match args with
  | loanAppId :: _ =>
      let '(bytes, err) := GetState stub loanAppId in
      match err with
      | Some err => (stub, (None, Some err))
      | None => (stub, (bytes, None))
      end
  | [] => (stub, (None, Some (errors_New "Missing loan application ID")))
  end.

(** func UpdateLoanApplication.  The error of [json.Unmarshal] is assigned
    to [err] and overwritten by the next assignment without being read. *)
Definition UpdateLoanApplication (stub : S) (args : list string)
  : S * (ByteSlice * option error) :=
  match args with
  | loanAppID :: status :: _ =>
      let '(laBytes, err) := GetState stub loanAppID in
      match err with
      | Some err => (stub, (None, Some err))
      | None =>
          let '(loanApplication, _) := json_Unmarshal laBytes zeroLoanApplication in
          let loanApplication := set_Status loanApplication status in
          let '(laBytes, err) := json_Marshal loanApplication in
          match err with
          | Some err => (stub, (None, Some err))
          | None =>
              let '(stub, err) := PutState stub loanAppID laBytes in
              match err with
              | Some err => (stub, (None, Some err))
              | None =>
                  let customEvent :=
                    "{eventType: 'loanApplicationUpdate', description: '"
                    +:+ loanAppID +:+ " Successfully updated'}" in
                  let '(stub, err) := SetEvent stub "evtSender" (bytes_of customEvent) in
                  match err with
                  | Some err => (stub, (None, Some err))
                  | None => (stub, (None, None))
                  end
              end
          end
      end
  | _ => (stub, (None, Some (errors_New
            "Expected at least 2 arguments for loan application update")))
  end.

(** func (t *SampleChainCode) Init *)
Definition Init (stub : S) (function : string) (args : list string)
  : S * (ByteSlice * option error) :=
  (stub, (None, None)).

(** func (t *SampleChainCode) Query *)
Definition Query (stub : S) (function : string) (args : list string)
  : S * (ByteSlice * option error) :=
  if String.eqb function "GetLoanApplication"
  then GetLoanApplication stub args
  else (stub, (None, None)).

(** func (t *SampleChainCode) Invoke.  The body ends after the [if]: for
    any other function name no [return] is reached, which is [None] here. *)
Definition Invoke (stub : S) (function : string) (args : list string)
  : S * option (ByteSlice * option error) :=
  if String.eqb function "CreateLoanApplication"
  then
    let '(username, _) := GetCertAttribute stub "username" in
    let '(role, _) := GetCertAttribute stub "role" in
    if String.eqb role "Bank_Home_Loan_Admin"
    then let '(stub, r) := CreateLoanApplication stub args in (stub, Some r)
    else (stub, Some (None, Some (errors_New
            (username +:+ " with role " +:+ role
             +:+ " does not have correct permissions"))))
  else (stub, None).

End Handler.

(** ** The ledger gateway *)

(** Modelled from the spec: the hosting ledger behind
    [shim.ChaincodeStubInterface] is not part of the repository; section 4.3
    pins its contract as [get(key) -> bytes | NotFound],
    [put(key, value) -> ok | WriteFailed],
    [emitEvent(channel, payload) -> ok | WriteFailed] and
    [getCredentialAttribute(name) -> bytes | NotFound].  A [World] is one
    state of that gateway: the key space, the events set so far (oldest
    first), the attributes of the caller's credential, and which writes and
    which emissions the host refuses. *)
Record World : Type := mkWorld {
  ledger : gmap string bytes;
  events : list (string * bytes);
  credential : gmap string bytes;
  put_refused : string -> bytes -> bool;
  event_refused : string -> bytes -> bool
}.

Definition World_get (w : World) (key : string) : ByteSlice * option error :=
  match ledger w !! key with
  | Some value => (Some value, None)
  | None => (None, Some (NotFound key))
  end.

(** The gateway after an accepted write, and after an accepted emission. *)
Definition store (w : World) (key : string) (value : bytes) : World :=
  mkWorld (<[key := value]> (ledger w)) (events w) (credential w)
    (put_refused w) (event_refused w).

Definition emit (w : World) (channel : string) (payload : bytes) : World :=
  mkWorld (ledger w) (events w ++ [(channel, payload)]) (credential w)
    (put_refused w) (event_refused w).

Definition World_put (w : World) (key : string) (value : ByteSlice)
  : World * option error :=
  if put_refused w key (content value)
  then (w, Some (WriteFailed key))
  else (store w key (content value), None).

Definition World_emitEvent (w : World) (channel : string) (payload : ByteSlice)
  : World * option error :=
  if event_refused w channel (content payload)
  then (w, Some (WriteFailed channel))
  else (emit w channel (content payload), None).

Definition World_getCredentialAttribute (w : World) (name : string)
  : ByteSlice * option error :=
  match credential w !! name with
  | Some value => (Some value, None)
  | None => (None, Some (NotFound name))
  end.

#[export] Instance World_stub : ChaincodeStubInterface World := {
  GetState := World_get;
  PutState := World_put;
  SetEvent := World_emitEvent;
  ReadCertAttribute := World_getCredentialAttribute
}.

(** ** The record codec *)

(** Modelled from the spec: [encoding/json] is not part of the repository;
    section 4.1 asks for a structural JSON field mapping with the field names
    of the struct tags, nested objects for the two embedded structs, unknown
    and missing fields tolerated, and a failure on malformed input.  The
    module follows the behaviour of Go's package for text that is valid
    UTF-8: the whole input is checked against the JSON grammar before the
    struct is touched; member names match field names up to ASCII case;
    [null] leaves a field as it is; a value of the wrong kind leaves its
    field as it is and the first such mismatch is reported once the whole
    object has been walked. *)
Module GoJSON.

Local Open Scope char_scope.

#[local] Unset Elimination Schemes.
Inductive json : Type :=
  | JNull
  | JBool (b : bool)
  | JNumber (literal : string)
  | JString (s : string)
  | JArray (elems : list json)
  | JObject (members : list (string * json)).
#[local] Set Elimination Schemes.

Definition dquote : ascii := "034".

Definition is_space (c : ascii) : bool :=
  Ascii.eqb c " " || Ascii.eqb c "009" || Ascii.eqb c "010" || Ascii.eqb c "013".

Definition is_digit (c : ascii) : bool :=
  (48 <=? nat_of_ascii c)%nat && (nat_of_ascii c <=? 57)%nat.

Fixpoint skip_space (s : string) : string :=
  match s with
  | String c rest => if is_space c then skip_space rest else s
  | EmptyString => s
  end.

Definition hex_digit (c : ascii) : option N :=
  let n := N_of_ascii c in
  if (48 <=? n)%N && (n <=? 57)%N then Some (n - 48)%N
  else if (65 <=? n)%N && (n <=? 70)%N then Some (n - 55)%N
  else if (97 <=? n)%N && (n <=? 102)%N then Some (n - 87)%N
  else None.

Definition hex4 (a b c d : ascii) : option N :=
  a ← hex_digit a; b ← hex_digit b; c ← hex_digit c; d ← hex_digit d;
  Some (((a * 16 + b) * 16 + c) * 16 + d)%N.

(** UTF-8 encoding of a code point. *)
Definition utf8 (cp : N) : string :=
  let byte n := ascii_of_N n in
  let cont n := byte (128 + n mod 64)%N in
  if (cp <? 128)%N then String (byte cp) ""
  else if (cp <? 2048)%N then
    String (byte (192 + cp / 64)%N) (String (cont cp) "")
  else if (cp <? 65536)%N then
    String (byte (224 + cp / 4096)%N)
      (String (cont (cp / 64)%N) (String (cont cp) ""))
  else
    String (byte (240 + cp / 262144)%N)
      (String (cont (cp / 4096)%N)
         (String (cont (cp / 64)%N) (String (cont cp) ""))).

Definition is_high_surrogate (cp : N) : bool := (55296 <=? cp)%N && (cp <? 56320)%N.
Definition is_low_surrogate (cp : N) : bool := (56320 <=? cp)%N && (cp <? 57344)%N.
Definition replacement : N := 65533.

Definition simple_escape (c : ascii) : option ascii :=
  if Ascii.eqb c dquote then Some dquote
  else if Ascii.eqb c "\" then Some "\"
  else if Ascii.eqb c "/" then Some "/"
  else if Ascii.eqb c "b" then Some "008"
  else if Ascii.eqb c "f" then Some "012"
  else if Ascii.eqb c "n" then Some "010"
  else if Ascii.eqb c "r" then Some "013"
  else if Ascii.eqb c "t" then Some "009"
  else None.

(** The rest of a string literal whose opening quote has been read: the
    text it denotes and what follows the closing quote. *)
Fixpoint read_string (s : string) : option (string * string) :=
  match s with
  | EmptyString => None
  | String c rest =>
      if Ascii.eqb c dquote then Some ("", rest)%string
      else if Ascii.eqb c "\" then
        match rest with
        | String "u" (String h1 (String h2 (String h3 (String h4 rest1)))) =>
            cp ← hex4 h1 h2 h3 h4;
            if is_high_surrogate cp then
              match rest1 with
              | String "\" (String "u"
                  (String l1 (String l2 (String l3 (String l4 rest2))))) =>
                  lo ← hex4 l1 l2 l3 l4;
                  if is_low_surrogate lo then
                    '(text, rest3) ← read_string rest2;
                    Some (utf8 (65536 + (cp - 55296) * 1024 + (lo - 56320))%N
                          +:+ text, rest3)
                  else
                    '(text, rest3) ← read_string rest1;
                    Some (utf8 replacement +:+ text, rest3)
              | _ =>
                  '(text, rest3) ← read_string rest1;
                  Some (utf8 replacement +:+ text, rest3)
              end
            else if is_low_surrogate cp then
              '(text, rest3) ← read_string rest1;
              Some (utf8 replacement +:+ text, rest3)
            else
              '(text, rest3) ← read_string rest1;
              Some (utf8 cp +:+ text, rest3)
        | String e rest1 =>
            e ← simple_escape e;
            '(text, rest3) ← read_string rest1;
            Some (String e text, rest3)
        | EmptyString => None
        end
      else if (nat_of_ascii c <? 32)%nat then None
      else
        '(text, rest3) ← read_string rest;
        Some (String c text, rest3)
  end.

Fixpoint span_digits (s : string) : string * string :=
  match s with
  | String c rest =>
      if is_digit c
      then let '(ds, rest1) := span_digits rest in (String c ds, rest1)
      else (""%string, s)
  | EmptyString => (""%string, s)
  end.

(** A number literal: an optional minus sign, an integer part without a
    leading zero unless it is the single digit zero, an optional fraction and
    an optional exponent. *)
Definition read_number (s : string) : option (string * string) :=
  let '(sign, s) :=
    match s with
    | String "-" rest => ("-"%string, rest)
    | _ => (""%string, s)
    end in
  let '(int, s) := span_digits s in
  match int with
  | EmptyString => None
  | String "0" (String _ _) => None
  | _ =>
      frac ←
        match s with
        | String "." rest =>
            let '(ds, rest1) := span_digits rest in
            match ds with
            | EmptyString => None
            | _ => Some (String "." ds, rest1)
            end
        | _ => Some (""%string, s)
        end;
      let '(frac, s) := frac in
      exp ←
        match s with
        | String e rest =>
            if Ascii.eqb e "e" || Ascii.eqb e "E" then
              let '(esign, rest1) :=
                match rest with
                | String "+" r => ("+"%string, r)
                | String "-" r => ("-"%string, r)
                | _ => (""%string, rest)
                end in
              let '(ds, rest2) := span_digits rest1 in
              match ds with
              | EmptyString => None
              | _ => Some (String e (esign +:+ ds), rest2)
              end
            else Some (""%string, s)
        | EmptyString => Some (""%string, s)
        end;
      let '(exp, s) := exp in
      Some (sign +:+ int +:+ frac +:+ exp, s)
  end.

Definition read_literal (word : string) (v : json) (s : string)
  : option (json * string) :=
  if String.prefix word s
  then Some (v, String.substring (String.length word)
                  (String.length s - String.length word) s)
  else None.

(** Recursive descent over the JSON grammar; every call that recurses has
    read at least one character, so [2 * length s + 2] calls suffice. *)
Fixpoint read_value (fuel : nat) (s : string) : option (json * string) :=
  match fuel with
  | O => None
  | S fuel =>
      match skip_space s with
      | EmptyString => None
      | String c rest =>
          if Ascii.eqb c dquote then
            '(text, rest1) ← read_string rest; Some (JString text, rest1)
          else if Ascii.eqb c "{" then
            match skip_space rest with
            | String "}" rest1 => Some (JObject [], rest1)
            | rest1 =>
                '(members, rest2) ← read_members fuel rest1;
                Some (JObject members, rest2)
            end
          else if Ascii.eqb c "[" then
            match skip_space rest with
            | String "]" rest1 => Some (JArray [], rest1)
            | rest1 =>
                '(elems, rest2) ← read_elems fuel rest1;
                Some (JArray elems, rest2)
            end
          else if Ascii.eqb c "t" then read_literal "true" (JBool true) (String c rest)
          else if Ascii.eqb c "f" then read_literal "false" (JBool false) (String c rest)
          else if Ascii.eqb c "n" then read_literal "null" JNull (String c rest)
          else
            '(literal, rest1) ← read_number (String c rest);
            Some (JNumber literal, rest1)
      end
  end
with read_members (fuel : nat) (s : string) : option (list (string * json) * string) :=
  match fuel with
  | O => None
  | S fuel =>
      match skip_space s with
      | String c rest =>
          if Ascii.eqb c dquote then
            '(key, rest1) ← read_string rest;
            match skip_space rest1 with
            | String ":" rest2 =>
                '(v, rest3) ← read_value fuel rest2;
                match skip_space rest3 with
                | String "," rest4 =>
                    '(members, rest5) ← read_members fuel rest4;
                    Some ((key, v) :: members, rest5)
                | String "}" rest4 => Some ([(key, v)], rest4)
                | _ => None
                end
            | _ => None
            end
          else None
      | EmptyString => None
      end
  end
with read_elems (fuel : nat) (s : string) : option (list json * string) :=
  match fuel with
  | O => None
  | S fuel =>
      '(v, rest1) ← read_value fuel s;
      match skip_space rest1 with
      | String "," rest2 =>
          '(elems, rest3) ← read_elems fuel rest2;
          Some (v :: elems, rest3)
      | String "]" rest2 => Some ([v], rest2)
      | _ => None
      end
  end.

(** The value a whole text denotes, [None] when the text is not JSON. *)
Definition parse (s : string) : option json :=
  '(v, rest) ← read_value (2 * String.length s + 2) s;
  match skip_space rest with
  | EmptyString => Some v
  | _ => None
  end.

(** *** Decoding into the structs *)

Definition kind_name (v : json) : string :=
  match v with
  | JNull => "null"
  | JBool _ => "bool"
  | JNumber _ => "number"
  | JString _ => "string"
  | JArray _ => "array"
  | JObject _ => "object"
  end.

Definition mismatch (v : json) (go_type : string) : error :=
  MalformedRecord ("json: cannot unmarshal " +:+ kind_name v
                   +:+ " into Go value of type " +:+ go_type).

Definition first_error (e1 e2 : option error) : option error :=
  match e1 with
  | Some _ => e1
  | None => e2
  end.

Definition to_lower (c : ascii) : ascii :=
  let n := nat_of_ascii c in
  if (65 <=? n)%nat && (n <=? 90)%nat then ascii_of_nat (n + 32) else c.

Fixpoint equalFold (a b : string) : bool :=
  match a, b with
  | String x a, String y b => Ascii.eqb (to_lower x) (to_lower y) && equalFold a b
  | EmptyString, EmptyString => true
  | _, _ => false
  end.

Definition into_string (v : json) (old : string) : string * option error :=
  match v with
  | JString s => (s, None)
  | JNull => (old, None)
  | _ => (old, Some (mismatch v "string"))
  end.

(** [strconv.ParseInt(literal, 10, 64)] on a number literal. *)
Definition parse_int (literal : string) : option Z :=
  z ← Z.of_int <$> NilZero.int_of_string literal;
  if ((- 2 ^ 63 <=? z) && (z <? 2 ^ 63))%Z then Some z else None.

Definition into_int (v : json) (old : Z) : Z * option error :=
  match v with
  | JNumber literal =>
      match parse_int literal with
      | Some z => (z, None)
      | None => (old, Some (mismatch v "int"))
      end
  | JNull => (old, None)
  | _ => (old, Some (mismatch v "int"))
  end.

(** Walk the members of an object in order, keeping the first error. *)
Definition into_struct {A : Type} (go_type : string)
    (step : string -> json -> A -> A * option error) (v : json) (old : A)
  : A * option error :=
  match v with
  | JObject members =>
      fold_left
        (fun acc member =>
           let '(x, e) := step (fst member) (snd member) (fst acc) in
           (x, first_error (snd acc) e))
        members (old, None)
  | JNull => (old, None)
  | _ => (old, Some (mismatch v go_type))
  end.

(** The field tagged [name], when the member is called [key]. *)
Definition member {A : Type} (key name : string)
    (into : json -> A -> A * option error) (v : json) (old : A)
  : A * option error :=
  if equalFold key name then into v old else (old, None).

Definition step_PersonalInfo (key : string) (v : json) (p : PersonalInfo)
  : PersonalInfo * option error :=
  let f1 := member key "firstname" into_string v (Firstname p) in
  let f2 := member key "lastname" into_string v (Lastname p) in
  let f3 := member key "DOB" into_string v (DOB p) in
  let f4 := member key "email" into_string v (Email p) in
  let f5 := member key "mobile" into_string v (Mobile p) in
  (mkPersonalInfo (fst f1) (fst f2) (fst f3) (fst f4) (fst f5),
   foldr first_error None [snd f1; snd f2; snd f3; snd f4; snd f5]).

Definition step_FinancialInfo (key : string) (v : json) (f : FinancialInfo)
  : FinancialInfo * option error :=
  let f1 := member key "monthlySalary" into_int v (MonthlySalary f) in
  let f2 := member key "monthlyRent" into_int v (MonthlyRent f) in
  let f3 := member key "otherExpenditure" into_int v (OtherExpenditure f) in
  let f4 := member key "monthlyLoanPayment" into_int v (MonthlyLoanPayment f) in
  (mkFinancialInfo (fst f1) (fst f2) (fst f3) (fst f4),
   foldr first_error None [snd f1; snd f2; snd f3; snd f4]).

Definition step_LoanApplication (key : string) (v : json) (la : LoanApplication)
  : LoanApplication * option error :=
  let f1 := member key "id" into_string v (ID la) in
  let f2 := member key "PropertyID" into_string v (PropertyID la) in
  let f3 := member key "LandID" into_string v (LandID la) in
  let f4 := member key "PermitID" into_string v (PermitID la) in
  let f5 := member key "BuyerID" into_string v (BuyerID la) in
  let f6 := member key "SalesContractID" into_string v (SalesContractID la) in
  let f7 := member key "personalInfo"
              (into_struct "main.PersonalInfo" step_PersonalInfo) v (PersonalInfo_ la) in
  let f8 := member key "financialInfo"
              (into_struct "main.FinancialInfo" step_FinancialInfo) v (FinancialInfo_ la) in
  let f9 := member key "status" into_string v (Status la) in
  let f10 := member key "requestedAmount" into_int v (RequestedAmount la) in
  let f11 := member key "fairMarketValue" into_int v (FairMarketValue la) in
  let f12 := member key "approvedAmount" into_int v (ApprovedAmount la) in
  let f13 := member key "ReviewerID" into_string v (ReviewerID la) in
  let f14 := member key "lastModifiedDate" into_string v (LastModifiedDate la) in
  (mkLoanApplication (fst f1) (fst f2) (fst f3) (fst f4) (fst f5) (fst f6) (fst f7)
     (fst f8) (fst f9) (fst f10) (fst f11) (fst f12) (fst f13) (fst f14),
   foldr first_error None
     [snd f1; snd f2; snd f3; snd f4; snd f5; snd f6; snd f7; snd f8; snd f9;
      snd f10; snd f11; snd f12; snd f13; snd f14]).

(** [json.Unmarshal(data, &v)] *)
Definition Unmarshal (data : ByteSlice) (v : LoanApplication)
  : LoanApplication * option error :=
  match parse (string_of data) with
  | None => (v, Some (MalformedRecord "json: syntax error"))
  | Some j => into_struct "main.LoanApplication" step_LoanApplication j v
  end.

(** *** Encoding the structs *)

Definition hex_char (n : N) : ascii :=
  if (n <? 10)%N then ascii_of_N (48 + n) else ascii_of_N (87 + n).

(** One byte of a string inside a literal: quote and backslash are escaped,
    so are the control characters and the three characters [<], [>], [&];
    every other byte stands for itself (Go also writes the line and the
    paragraph separator as escapes, which decode to the same bytes). *)
Definition escape_char (c : ascii) : string :=
  let n := N_of_ascii c in
  if Ascii.eqb c dquote then String "\" (String dquote "")
  else if Ascii.eqb c "\" then "\\"
  else if Ascii.eqb c "010" then "\n"
  else if Ascii.eqb c "013" then "\r"
  else if Ascii.eqb c "009" then "\t"
  else if (n <? 32)%N || Ascii.eqb c "<" || Ascii.eqb c ">" || Ascii.eqb c "&"
  then "\u00" +:+ String (hex_char (n / 16)) (String (hex_char (n mod 16)) "")
  else String c "".

Fixpoint escape (s : string) : string :=
  match s with
  | String c rest => escape_char c +:+ escape rest
  | EmptyString => ""
  end.

Definition quote (s : string) : string :=
  String dquote (escape s +:+ String dquote "").

Definition number (z : Z) : string := NilZero.string_of_int (Z.to_int z).

Definition field (name value : string) : string := quote name +:+ ":" +:+ value.

Definition object (fields : list string) : string :=
  "{" +:+ String.concat "," fields +:+ "}".

Definition Marshal_PersonalInfo (p : PersonalInfo) : string :=
  object [field "firstname" (quote (Firstname p));
          field "lastname" (quote (Lastname p));
          field "DOB" (quote (DOB p));
          field "email" (quote (Email p));
          field "mobile" (quote (Mobile p))].

Definition Marshal_FinancialInfo (f : FinancialInfo) : string :=
  object [field "monthlySalary" (number (MonthlySalary f));
          field "monthlyRent" (number (MonthlyRent f));
          field "otherExpenditure" (number (OtherExpenditure f));
          field "monthlyLoanPayment" (number (MonthlyLoanPayment f))].

Definition Marshal_LoanApplication (la : LoanApplication) : string :=
  object [field "id" (quote (ID la));
          field "PropertyID" (quote (PropertyID la));
          field "LandID" (quote (LandID la));
          field "PermitID" (quote (PermitID la));
          field "BuyerID" (quote (BuyerID la));
          field "SalesContractID" (quote (SalesContractID la));
          field "personalInfo" (Marshal_PersonalInfo (PersonalInfo_ la));
          field "financialInfo" (Marshal_FinancialInfo (FinancialInfo_ la));
          field "status" (quote (Status la));
          field "requestedAmount" (number (RequestedAmount la));
          field "fairMarketValue" (number (FairMarketValue la));
          field "approvedAmount" (number (ApprovedAmount la));
          field "ReviewerID" (quote (ReviewerID la));
          field "lastModifiedDate" (quote (LastModifiedDate la))].

(** The encoding of the declared event schema. *)
Definition Marshal_customEvent (e : customEvent) : string :=
  object [field "type" (quote (Type_ e));
          field "description" (quote (Decription e))].

(** [json.Marshal(&v)]; it has no failing case at this type. *)
Definition Marshal (v : LoanApplication) : ByteSlice * option error :=
  (bytes_of (Marshal_LoanApplication v), None).

Definition encoding_json : Codec :=
  {| json_Marshal := Marshal; json_Unmarshal := Unmarshal |}.

(** *** Vocabulary of the round trip *)

(** A delimiter: the character after a member's value inside an object. *)
Definition closes (s : string) : Prop :=
  exists rest, s = String "," rest \/ s = String "}" rest.

(** The text [vt] is read as the value [v] with any fuel from [fuel0] on,
    whatever delimiter follows it. *)
Definition reads_as (fuel0 : nat) (vt : string) (v : json) : Prop :=
  forall fuel s, fuel0 <= fuel -> closes s -> read_value fuel (vt +:+ s) = Some (v, s).

(** The first character of a number literal. *)
Definition number_head (c : ascii) : bool := Ascii.eqb c "-" || is_digit c.

(** The text of the members [(name, text of the value, value)]. *)
Definition fields_text (fs : list (string * string * json)) : list string :=
  map (fun f => field (fst (fst f)) (snd (fst f))) fs.

(** The members they are read as. *)
Definition fields_members (fs : list (string * string * json)) : list (string * json) :=
  map (fun f => (fst (fst f), snd f)) fs.

(** The members of the three structs, in the order of their declaration. *)
Definition fields_PersonalInfo (p : PersonalInfo) : list (string * string * json) :=
  [("firstname", quote (Firstname p), JString (Firstname p));
   ("lastname", quote (Lastname p), JString (Lastname p));
   ("DOB", quote (DOB p), JString (DOB p));
   ("email", quote (Email p), JString (Email p));
   ("mobile", quote (Mobile p), JString (Mobile p))]%string.

Definition fields_FinancialInfo (f : FinancialInfo) : list (string * string * json) :=
  [("monthlySalary", number (MonthlySalary f), JNumber (number (MonthlySalary f)));
   ("monthlyRent", number (MonthlyRent f), JNumber (number (MonthlyRent f)));
   ("otherExpenditure", number (OtherExpenditure f), JNumber (number (OtherExpenditure f)));
   ("monthlyLoanPayment", number (MonthlyLoanPayment f),
    JNumber (number (MonthlyLoanPayment f)))]%string.

Definition fields_LoanApplication (la : LoanApplication) : list (string * string * json) :=
  [("id", quote (ID la), JString (ID la));
   ("PropertyID", quote (PropertyID la), JString (PropertyID la));
   ("LandID", quote (LandID la), JString (LandID la));
   ("PermitID", quote (PermitID la), JString (PermitID la));
   ("BuyerID", quote (BuyerID la), JString (BuyerID la));
   ("SalesContractID", quote (SalesContractID la), JString (SalesContractID la));
   ("personalInfo", Marshal_PersonalInfo (PersonalInfo_ la),
    JObject (fields_members (fields_PersonalInfo (PersonalInfo_ la))));
   ("financialInfo", Marshal_FinancialInfo (FinancialInfo_ la),
    JObject (fields_members (fields_FinancialInfo (FinancialInfo_ la))));
   ("status", quote (Status la), JString (Status la));
   ("requestedAmount", number (RequestedAmount la), JNumber (number (RequestedAmount la)));
   ("fairMarketValue", number (FairMarketValue la), JNumber (number (FairMarketValue la)));
   ("approvedAmount", number (ApprovedAmount la), JNumber (number (ApprovedAmount la)));
   ("ReviewerID", quote (ReviewerID la), JString (ReviewerID la));
   ("lastModifiedDate", quote (LastModifiedDate la), JString (LastModifiedDate la))]%string.

(** The range of a Go [int] on a 64-bit platform. *)
Definition int64 (z : Z) : Prop := (- 2 ^ 63 <= z < 2 ^ 63)%Z.

Definition ints_in_range (la : LoanApplication) : Prop :=
  int64 (RequestedAmount la) /\ int64 (FairMarketValue la) /\
  int64 (ApprovedAmount la) /\
  int64 (MonthlySalary (FinancialInfo_ la)) /\ int64 (MonthlyRent (FinancialInfo_ la)) /\
  int64 (OtherExpenditure (FinancialInfo_ la)) /\
  int64 (MonthlyLoanPayment (FinancialInfo_ la)).

Definition FinancialInfo_in_range (f : FinancialInfo) : Prop :=
  int64 (MonthlySalary f) /\ int64 (MonthlyRent f) /\
  int64 (OtherExpenditure f) /\ int64 (MonthlyLoanPayment f).

(** JSON text is written below with apostrophes standing for the double
    quotes. *)
Fixpoint text (s : string) : string :=
  match s with
  | String c rest => String (if Ascii.eqb c "'" then dquote else c) (text rest)
  | EmptyString => ""
  end.

End GoJSON.

(** ** Vocabulary of the statements *)

(** The two payloads the handler hands to [SetEvent]. *)
Definition creationNotice (loanAppID : string) : string :=
  "{eventType: 'loanApplicationCreation', description: '"
  +:+ loanAppID +:+ " Successfully created'}".

Definition updateNotice (loanAppID : string) : string :=
  "{eventType: 'loanApplicationUpdate', description: '"
  +:+ loanAppID +:+ " Successfully updated'}".

(** What [GetCertAttribute] makes of an attribute of the caller: its text,
    and the empty string when the credential has no such attribute. *)
Definition attribute_text (w : World) (name : string) : string :=
  match credential w !! name with
  | Some value => string_of_list_byte value
  | None => ""
  end.

(** The message of the error [Invoke] builds for a caller it turns away. *)
Definition permission_denied (username role : string) : error :=
  errors_New (username +:+ " with role " +:+ role
              +:+ " does not have correct permissions").

(** Two records that agree on every field but [Status]. *)
Definition same_but_Status (a b : LoanApplication) : Prop :=
  ID a = ID b /\ PropertyID a = PropertyID b /\ LandID a = LandID b /\
  PermitID a = PermitID b /\ BuyerID a = BuyerID b /\
  SalesContractID a = SalesContractID b /\
  PersonalInfo_ a = PersonalInfo_ b /\ FinancialInfo_ a = FinancialInfo_ b /\
  RequestedAmount a = RequestedAmount b /\ FairMarketValue a = FairMarketValue b /\
  ApprovedAmount a = ApprovedAmount b /\ ReviewerID a = ReviewerID b /\
  LastModifiedDate a = LastModifiedDate b.

(** The record the update reads out of stored bytes: whatever
    [json.Unmarshal] left in the zero-valued struct. *)
Definition decoded {codec : Codec} (stored : bytes) : LoanApplication :=
  fst (json_Unmarshal (Some stored) zeroLoanApplication).

(** The codec gives back the record [v] from its own encoding of [v]. *)
Definition round_trips {codec : Codec} (v : LoanApplication) : Prop :=
  forall out, json_Marshal v = (out, None) -> decoded (content out) = v.

(** ** Sample gateways *)

Definition caller (username role : string) : World :=
  mkWorld ∅ []
    (<["username" := list_byte_of_string username]>
       {["role" := list_byte_of_string role]})
    (fun _ _ => false) (fun _ _ => false).

Definition home_loan_admin : World := caller "alice" "Bank_Home_Loan_Admin".
Definition loan_officer : World := caller "bob" "Loan_Officer".

(** A caller whose credential carries no attribute at all. *)
Definition anonymous : World :=
  mkWorld ∅ [] ∅ (fun _ _ => false) (fun _ _ => false).

(** The same gateway with a host that refuses every event. *)
Definition refusing_events (w : World) : World :=
  mkWorld (ledger w) (events w) (credential w) (put_refused w) (fun _ _ => true).

Definition submitted_LA1 : string := GoJSON.text "{'id':'LA1','status':'Submitted'}".

(** The encoding of a record that has an id and a status and is otherwise at
    its zero value. *)
Definition blank_record (id status : string) : string :=
  GoJSON.text
    ("{'id':'" +:+ id +:+ "','PropertyID':'','LandID':'','PermitID':'','BuyerID':'',"
     +:+ "'SalesContractID':'','personalInfo':{'firstname':'','lastname':'',"
     +:+ "'DOB':'','email':'','mobile':''},'financialInfo':{'monthlySalary':0,"
     +:+ "'monthlyRent':0,'otherExpenditure':0,'monthlyLoanPayment':0},"
     +:+ "'status':'" +:+ status +:+ "','requestedAmount':0,'fairMarketValue':0,"
     +:+ "'approvedAmount':0,'ReviewerID':'','lastModifiedDate':''}").

(** The administrator's gateway once LA1 has been created. *)
Definition created_LA1 : World :=
  emit (store home_loan_admin "LA1" (list_byte_of_string submitted_LA1))
    "evtSender" (list_byte_of_string (creationNotice "LA1")).

(** And once LA1 has then been updated to the status Approved. *)
Definition approved_LA1 : World :=
  emit (store created_LA1 "LA1" (list_byte_of_string (blank_record "LA1" "Approved")))
    "evtSender" (list_byte_of_string (updateNotice "LA1")).

(** The administrator's gateway once LA1 has been created from a second
    argument that is not JSON: a creation stores that argument unread. *)
Definition undecodable_LA1 : World :=
  emit (store home_loan_admin "LA1" (list_byte_of_string "not json"))
    "evtSender" (list_byte_of_string (creationNotice "LA1")).

(** The same gateway with a host that refuses every write. *)
Definition refusing_writes (w : World) : World :=
  mkWorld (ledger w) (events w) (credential w) (fun _ _ => true) (event_refused w).

(** An administrator whose credential carries the role and no username. *)
Definition nameless_admin : World :=
  mkWorld ∅ [] {["role" := list_byte_of_string "Bank_Home_Loan_Admin"]}
    (fun _ _ => false) (fun _ _ => false).

(** A record with something in every kind of field. *)
Definition sample_application : LoanApplication :=
  mkLoanApplication "LA7" "P-12" "L-3" "" "B<9>" "SC&1"
    (mkPersonalInfo "Ada" "Lovelace" "1815-12-10" "ada@example.org" "0123")
    (mkFinancialInfo 5200 (-1) 0 9223372036854775807)
    "Submitted" 250000 (-9223372036854775808) 0 "R\1" "".

(** The ledger a call leaves: the one it found, or that one with a value
    put under the first argument. *)
Definition writes_at_most (args : list string) (before after : gmap string bytes) : Prop :=
  after = before \/
  exists id value, head args = Some id /\ after = <[id := value]> before.


(** The administrator's gateway once LA1 has been created and updated to
    the status UnderReview, and once it has then been updated to Approved. *)
Definition reviewed_LA1 : World :=
  emit (store created_LA1 "LA1" (list_byte_of_string (blank_record "LA1" "UnderReview")))
    "evtSender" (list_byte_of_string (updateNotice "LA1")).

Definition approved_after_review_LA1 : World :=
  emit (store reviewed_LA1 "LA1" (list_byte_of_string (blank_record "LA1" "Approved")))
    "evtSender" (list_byte_of_string (updateNotice "LA1")).

(** The member called [name] of the JSON object that stored bytes spell, if
    they spell an object and it has a member of that name. *)
Definition stored_member (name : string) (stored : bytes) : option GoJSON.json :=
  match GoJSON.parse (string_of_list_byte stored) with
  | Some (GoJSON.JObject members) =>
      snd <$> List.find (fun m => String.eqb (fst m) name) members
  | _ => None
  end.

(** A record that carries a member the schema does not declare, the
    administrator's gateway once LA1 has been created from it, and once LA1
    has then been updated to the status Approved. *)
Definition co_applicant_LA1 : string :=
  GoJSON.text "{'id':'LA1','status':'Submitted','coApplicant':'Bob'}".

Definition created_with_member_LA1 : World :=
  emit (store home_loan_admin "LA1" (list_byte_of_string co_applicant_LA1))
    "evtSender" (list_byte_of_string (creationNotice "LA1")).

Definition approved_without_member_LA1 : World :=
  emit (store created_with_member_LA1 "LA1"
          (list_byte_of_string (blank_record "LA1" "Approved")))
    "evtSender" (list_byte_of_string (updateNotice "LA1")).

(** The administrator's gateway with LA1 created and a second record under
    LA2. *)
Definition two_records : World :=
  store created_LA1 "LA2" (list_byte_of_string submitted_LA1).

(** ** What the handler does over any stub *)

Section AnyStub.
Context {S : Type} {stub_ops : ChaincodeStubInterface S}.

(** A read hands on the error of [GetState] and drops the value. *)
Lemma GetLoanApplication_error (stub : S) (id : string) (rest : list string)
    (v : ByteSlice) (e : error) :
  GetState stub id = (v, Some e) ->
  GetLoanApplication stub (id :: rest) = (stub, (None, Some e)).
Proof. intros Hget. unfold GetLoanApplication. now rewrite Hget. Qed.

(** A read hands on the value of [GetState] as it is, [nil] included. *)
Lemma GetLoanApplication_value (stub : S) (id : string) (rest : list string)
    (v : ByteSlice) :
  GetState stub id = (v, None) ->
  GetLoanApplication stub (id :: rest) = (stub, (v, None)).
Proof. intros Hget. unfold GetLoanApplication. now rewrite Hget. Qed.

Lemma Query_GetLoanApplication (stub : S) (args : list string) :
  Query stub "GetLoanApplication" args = GetLoanApplication stub args.
Proof. reflexivity. Qed.

(** Any name but CreateLoanApplication falls off the end of [Invoke]. *)
Lemma Invoke_unknown (stub : S) (function : string) (args : list string) :
  function <> "CreateLoanApplication" ->
  Invoke stub function args = (stub, None).
Proof.
  intros Hne. unfold Invoke.
  destruct (String.eqb_spec function "CreateLoanApplication"); [contradiction | reflexivity].
Qed.

(** A caller whose role reads as anything but the administrator's is turned
    away before the creation is called. *)
Lemma Invoke_Create_denied (stub : S) (args : list string) :
  fst (GetCertAttribute stub "role") <> "Bank_Home_Loan_Admin" ->
  Invoke stub "CreateLoanApplication" args =
    (stub, Some (None, Some (permission_denied (fst (GetCertAttribute stub "username"))
                                                (fst (GetCertAttribute stub "role"))))).
Proof.
  intros Hrole. unfold Invoke. cbn [String.eqb Ascii.eqb Bool.eqb].
  destruct (GetCertAttribute stub "username") as [username eu].
  destruct (GetCertAttribute stub "role") as [role er]. cbn [fst] in *.
  destruct (String.eqb_spec role "Bank_Home_Loan_Admin"); [contradiction | reflexivity].
Qed.

(** A caller whose role reads as the administrator's gets the creation and
    its result. *)
Lemma Invoke_Create_admitted (stub : S) (args : list string) :
  fst (GetCertAttribute stub "role") = "Bank_Home_Loan_Admin" ->
  Invoke stub "CreateLoanApplication" args =
    (fst (CreateLoanApplication stub args), Some (snd (CreateLoanApplication stub args))).
Proof.
  intros Hrole. unfold Invoke. cbn [String.eqb Ascii.eqb Bool.eqb].
  destruct (GetCertAttribute stub "username") as [username eu].
  destruct (GetCertAttribute stub "role") as [role er]. cbn [fst] in Hrole. subst role.
  rewrite String.eqb_refl. now destruct (CreateLoanApplication stub args).
Qed.

Context {codec : Codec}.

(** An update hands on the error of [GetState] before it does anything else. *)
Lemma UpdateLoanApplication_read_error (stub : S) (id status : string)
    (rest : list string) (v : ByteSlice) (e : error) :
  GetState stub id = (v, Some e) ->
  UpdateLoanApplication stub (id :: status :: rest) = (stub, (None, Some e)).
Proof. intros Hget. unfold UpdateLoanApplication. now rewrite Hget. Qed.

End AnyStub.

(** ** What the handler does over the ledger gateway *)

Lemma World_get_absent (w : World) (key : string) :
  ledger w !! key = None -> GetState w key = (None, Some (NotFound key)).
Proof. intros Hnone. cbn. unfold World_get. now rewrite Hnone. Qed.

Lemma World_get_present (w : World) (key : string) (value : bytes) :
  ledger w !! key = Some value -> GetState w key = (Some value, None).
Proof. intros Hsome. cbn. unfold World_get. now rewrite Hsome. Qed.

(** [GetCertAttribute] over the gateway: the text of the attribute, or the
    empty string. *)
Lemma GetCertAttribute_World (w : World) (name : string) :
  fst (GetCertAttribute w name) = attribute_text w name.
Proof.
  unfold GetCertAttribute, attribute_text. cbn.
  unfold World_getCredentialAttribute.
  now destruct (credential w !! name).
Qed.

Lemma attribute_text_inj (w : World) (name text : string) :
  attribute_text w name = text ->
  text <> "" ->
  credential w !! name = Some (list_byte_of_string text).
Proof.
  unfold attribute_text. intros Ha Hne.
  destruct (credential w !! name) as [value |].
  - subst text. now rewrite list_byte_of_string_of_list_byte.
  - now subst text.
Qed.

(** The three ways a creation with two arguments can end. *)
Lemma CreateLoanApplication_World (w : World) (id record : string) (rest : list string) :
  CreateLoanApplication w (id :: record :: rest) =
    if put_refused w id (list_byte_of_string record)
    then (w, (None, Some (WriteFailed id)))
    else
      let w1 := store w id (list_byte_of_string record) in
      if event_refused w "evtSender" (list_byte_of_string (creationNotice id))
      then (w1, (None, Some (WriteFailed "evtSender")))
      else (emit w1 "evtSender" (list_byte_of_string (creationNotice id)), (None, None)).
Proof.
  unfold CreateLoanApplication. cbn. unfold World_put, World_emitEvent. cbn.
  destruct (put_refused w id (list_byte_of_string record)); [reflexivity |].
  cbn. fold (creationNotice id).
  now destruct (event_refused w "evtSender" (list_byte_of_string (creationNotice id))).
Qed.

Lemma CreateLoanApplication_success (w w' : World) (id record : string)
    (rest : list string) :
  CreateLoanApplication w (id :: record :: rest) = (w', (None, None)) ->
  w' = emit (store w id (list_byte_of_string record)) "evtSender"
         (list_byte_of_string (creationNotice id)).
Proof.
  rewrite CreateLoanApplication_World.
  destruct (put_refused w id _); [discriminate |]. cbn zeta.
  destruct (event_refused w "evtSender" _); [discriminate |].
  now inversion 1.
Qed.

Section Update.
Context {codec : Codec}.

(** The ways an update with two arguments can end once the read has
    succeeded: the decoding error, if any, plays no part. *)
Lemma UpdateLoanApplication_World (w : World) (id status : string)
    (rest : list string) (stored : bytes) :
  ledger w !! id = Some stored ->
  UpdateLoanApplication w (id :: status :: rest) =
    let '(out, err) := json_Marshal (set_Status (decoded stored) status) in
    match err with
    | Some err => (w, (None, Some err))
    | None =>
        if put_refused w id (content out)
        then (w, (None, Some (WriteFailed id)))
        else
          let w1 := store w id (content out) in
          if event_refused w "evtSender" (list_byte_of_string (updateNotice id))
          then (w1, (None, Some (WriteFailed "evtSender")))
          else (emit w1 "evtSender" (list_byte_of_string (updateNotice id)), (None, None))
    end.
Proof.
  intros Hstored. unfold UpdateLoanApplication, decoded.
  rewrite (World_get_present _ _ _ Hstored).
  destruct (json_Unmarshal (Some stored) zeroLoanApplication) as [la de]. cbn [fst].
  destruct (json_Marshal (set_Status la status)) as [out [err |]]; [reflexivity |].
  cbn. unfold World_put, World_emitEvent. cbn.
  destruct (put_refused w id (content out)); [reflexivity |].
  cbn. fold (updateNotice id).
  now destruct (event_refused w "evtSender" (list_byte_of_string (updateNotice id))).
Qed.

Lemma UpdateLoanApplication_success (w w' : World) (id status : string)
    (rest : list string) (stored : bytes) :
  ledger w !! id = Some stored ->
  UpdateLoanApplication w (id :: status :: rest) = (w', (None, None)) ->
  exists out,
    json_Marshal (set_Status (decoded stored) status) = (out, None) /\
    w' = emit (store w id (content out)) "evtSender"
           (list_byte_of_string (updateNotice id)).
Proof.
  intros Hstored. rewrite (UpdateLoanApplication_World _ _ _ _ _ Hstored).
  destruct (json_Marshal (set_Status (decoded stored) status)) as [out [err |]];
    [discriminate |].
  destruct (put_refused w id (content out)); [discriminate |]. cbn zeta.
  destruct (event_refused w "evtSender" _); [discriminate |].
  inversion 1. now exists out.
Qed.

End Update.

(** Assigning the status changes no other field. *)
Lemma same_but_Status_set (la : LoanApplication) (status : string) :
  same_but_Status (set_Status la status) la.
Proof. unfold same_but_Status. cbn. repeat split. Qed.

(** ** The round trip of the JSON codec *)

Module GoJSONFacts.
Import GoJSON.

(** *** Strings *)

Lemma append_cons (x : ascii) (a b : string) : String x a +:+ b = String x (a +:+ b).
Proof. reflexivity. Qed.

Lemma append_nil_r (a : string) : a +:+ "" = a.
Proof. induction a as [| x a IH]; [reflexivity | now rewrite append_cons, IH]. Qed.

Lemma append_assoc (a b c : string) : (a +:+ b) +:+ c = a +:+ (b +:+ c).
Proof. induction a as [| x a IH]; [reflexivity | now rewrite !append_cons, IH]. Qed.

Lemma length_append (a b : string) :
  String.length (a +:+ b) = String.length a + String.length b.
Proof. induction a as [| x a IH]; [reflexivity | rewrite append_cons; cbn; now rewrite IH]. Qed.

(** Reading back one escaped byte. *)
Lemma read_string_escape_char (c : ascii) (s : string) :
  read_string (escape_char c +:+ s) =
    '(text, rest) ← read_string s; Some (String c text, rest).
Proof.
  destruct c as [[|] [|] [|] [|] [|] [|] [|] [|]]; reflexivity.
Qed.

(** Reading back an escaped string up to its closing quote. *)
Lemma read_string_escape (s rest : string) :
  read_string (escape s +:+ String dquote rest) = Some (s, rest).
Proof.
  induction s as [| c s IH].
  - reflexivity.
  - change (escape (String c s)) with (escape_char c +:+ escape s).
    rewrite append_assoc, read_string_escape_char. now rewrite IH.
Qed.

Lemma read_string_quote (s rest : string) :
  exists tail, quote s +:+ rest = String dquote tail /\ read_string tail = Some (s, rest).
Proof.
  exists (escape s +:+ String dquote rest). split.
  - unfold quote. now rewrite append_cons, append_assoc.
  - apply read_string_escape.
Qed.

(** *** Numbers *)

(** The decimal digits of a positive number are not empty and do not start
    with a zero. *)
Lemma to_uint_head (p : positive) :
  match Pos.to_uint p with
  | Decimal.Nil | Decimal.D0 _ => False
  | _ => True
  end.
Proof.
  pose proof (Unsigned.to_of (Pos.to_uint p)) as Hnorm.
  rewrite Unsigned.of_to in Hnorm. cbn [N.to_uint] in Hnorm.
  pose proof (Unsigned.to_uint_nonzero p) as Hnz.
  destruct (Pos.to_uint p) as [| d | | | | | | | | | ] eqn:Hd; try exact I.
  - now apply (Unsigned.to_uint_nonnil p).
  - rewrite unorm_D0 in Hnorm.
    assert (Hd' : d <> Decimal.Nil) by (intros ->; now apply Hnz).
    pose proof (nb_digits_unorm d Hd') as Hlen.
    rewrite <- Hnorm in Hlen. cbn in Hlen. lia.
Qed.

Lemma span_digits_uint (d : Decimal.uint) (s : string) :
  closes s ->
  span_digits (NilEmpty.string_of_uint d +:+ s) = (NilEmpty.string_of_uint d, s).
Proof.
  intros [rest [-> | ->]];
    induction d as [| d IH | d IH | d IH | d IH | d IH | d IH | d IH | d IH | d IH | d IH];
    try reflexivity;
    cbn [NilEmpty.string_of_uint]; rewrite append_cons;
    cbn [span_digits]; rewrite IH; reflexivity.
Qed.

(** One case of the next lemma: a first digit that is not zero, the digits
    [d] after it, then the delimiter. *)
Ltac read_digits d s Hs :=
  cbn [NilZero.string_of_uint NilEmpty.string_of_uint];
  rewrite !append_cons; unfold read_number; cbn [span_digits];
  rewrite (span_digits_uint d s Hs);
  destruct Hs as [rest [-> | ->]];
  lazy -[String.append NilEmpty.string_of_uint];
  rewrite !append_nil_r; reflexivity.

(** The decimal text of an integer is read back as one number literal. *)
Lemma read_number_number (z : Z) (s : string) :
  closes s -> read_number (number z +:+ s) = Some (number z, s).
Proof.
  intros Hs. unfold number.
  destruct z as [| p | p]; cbn [Z.to_int NilZero.string_of_int].
  - destruct Hs as [rest [-> | ->]]; reflexivity.
  - pose proof (to_uint_head p) as Hhead.
    destruct (Pos.to_uint p) as [| d | d | d | d | d | d | d | d | d | d];
      try contradiction; read_digits d s Hs.
  - pose proof (to_uint_head p) as Hhead.
    destruct (Pos.to_uint p) as [| d | d | d | d | d | d | d | d | d | d];
      try contradiction; read_digits d s Hs.
Qed.

(** And that literal is parsed back to the integer it came from. *)
Lemma parse_int_number (z : Z) :
  int64 z -> parse_int (number z) = Some z.
Proof.
  unfold int64. intros Hrange. unfold parse_int, number.
  rewrite NilZero.isi.
  - cbn [fmap option_fmap option_map mbind option_bind]. rewrite DecimalZ.of_to.
    destruct (Z.leb_spec (- 2 ^ 63) z); [| lia].
    destruct (Z.ltb_spec z (2 ^ 63)); [reflexivity | lia].
  - destruct z; cbn; try discriminate; intros [= H]; now apply (Unsigned.to_uint_nonnil p).
  - destruct z; cbn; try discriminate; intros [= H]; now apply (Unsigned.to_uint_nonnil p).
Qed.

(** *** Values, members and objects *)

Lemma reads_as_quote (s : string) : reads_as 1 (quote s) (JString s).
Proof.
  intros [| fuel] rest Hfuel _; [lia |].
  destruct (read_string_quote s rest) as (tail & -> & Htail).
  cbn. now rewrite Htail.
Qed.

Lemma read_value_number_head (fuel : nat) (c : ascii) (s : string) :
  number_head c = true ->
  read_value (S fuel) (String c s) =
    '(literal, rest) ← read_number (String c s); Some (JNumber literal, rest).
Proof.
  destruct c as [[|] [|] [|] [|] [|] [|] [|] [|]]; try discriminate; reflexivity.
Qed.

Lemma number_head_number (z : Z) :
  exists c tail, number z = String c tail /\ number_head c = true.
Proof.
  unfold number. destruct z as [| p | p]; cbn [Z.to_int NilZero.string_of_int].
  - now exists "0"%char, ""%string.
  - pose proof (to_uint_head p) as Hhead.
    destruct (Pos.to_uint p) as [| d | d | d | d | d | d | d | d | d | d];
      try contradiction; cbn [NilZero.string_of_uint NilEmpty.string_of_uint];
      eexists _, _; split; reflexivity.
  - eexists _, _; split; reflexivity.
Qed.

Lemma reads_as_number (z : Z) : reads_as 1 (number z) (JNumber (number z)).
Proof.
  intros [| fuel] rest Hfuel Hrest; [lia |].
  pose proof (read_number_number z rest Hrest) as Hnum.
  destruct (number_head_number z) as (c & tail & Hz & Hc).
  rewrite Hz in *. rewrite append_cons in *.
  now rewrite (read_value_number_head fuel c _ Hc), Hnum.
Qed.

Lemma closes_comma (s : string) : closes (String "," s).
Proof. exists s. now left. Qed.

Lemma closes_brace (s : string) : closes (String "}" s).
Proof. exists s. now right. Qed.

(** One member, up to the delimiter [d] that follows its value. *)
Lemma read_member (fuel0 fuel : nat) (name vt : string) (v : json) (s : string) :
  reads_as fuel0 vt v -> fuel0 <= fuel -> closes s ->
  exists tail,
    field name vt +:+ s = String dquote tail /\
    read_string tail = Some (name, String ":" (vt +:+ s)) /\
    read_value fuel (vt +:+ s) = Some (v, s).
Proof.
  intros Hv Hfuel Hs.
  destruct (read_string_quote name (String ":" (vt +:+ s))) as (tail & Htext & Htail).
  exists tail. split; [| split].
  - rewrite <- Htext. unfold field. now rewrite !append_assoc.
  - exact Htail.
  - now apply Hv.
Qed.

Lemma read_members_last (fuel : nat) (tail key text s : string) (v : json) :
  read_string tail = Some (key, String ":" text) ->
  read_value fuel text = Some (v, String "}" s) ->
  read_members (S fuel) (String dquote tail) = Some ([(key, v)], s).
Proof.
  intros Hkey Hvalue. cbn -[read_string read_value]. rewrite Hkey.
  cbn -[read_value]. now rewrite Hvalue.
Qed.

Lemma read_members_more (fuel : nat) (tail key text s : string) (v : json) :
  read_string tail = Some (key, String ":" text) ->
  read_value fuel text = Some (v, String "," s) ->
  read_members (S fuel) (String dquote tail) =
    '(members, rest) ← read_members fuel s; Some ((key, v) :: members, rest).
Proof.
  intros Hkey Hvalue. cbn -[read_string read_value]. rewrite Hkey.
  cbn -[read_value]. now rewrite Hvalue.
Qed.

(** The members of an object, up to its closing brace. *)
Lemma read_members_fields (fuel0 : nat) (fs : list (string * string * json)) :
  fs <> [] ->
  Forall (fun f => reads_as fuel0 (snd (fst f)) (snd f)) fs ->
  forall fuel s, length fs + fuel0 <= fuel ->
    read_members fuel (String.concat "," (fields_text fs) +:+ String "}" s)
      = Some (fields_members fs, s).
Proof.
  induction fs as [| [[name vt] v] fs IH]; [congruence |].
  intros _ Hall fuel s Hfuel.
  inversion Hall as [| ? ? Hv Hrest]; subst. cbn [fst snd] in Hv.
  destruct fuel as [| fuel]; [cbn in Hfuel; lia |].
  destruct fs as [| f fs'].
  - cbn [fields_text map String.concat fst snd].
    destruct (read_member fuel0 fuel name vt v (String "}" s) Hv) as (tail & -> & Htail & Hval);
      [cbn in Hfuel; lia | apply closes_brace |].
    apply (read_members_last fuel tail name _ s v Htail Hval).
  - change (String.concat "," (fields_text ((name, vt, v) :: f :: fs')))
      with (field name vt +:+ "," +:+ String.concat "," (fields_text (f :: fs'))).
    rewrite !append_assoc. change ("," +:+ ?x) with (String "," x).
    destruct (read_member fuel0 fuel name vt v
                (String "," (String.concat "," (fields_text (f :: fs')) +:+ String "}" s)) Hv)
      as (tail & -> & Htail & Hval); [cbn in Hfuel; lia | apply closes_comma |].
    rewrite (read_members_more fuel tail name _ _ v Htail Hval).
    rewrite (IH ltac:(discriminate) Hrest fuel s ltac:(cbn in *; lia)).
    reflexivity.
Qed.

Lemma read_value_brace (fuel : nat) (tail : string) :
  read_value (S fuel) (String "{" (String dquote tail)) =
    '(members, rest) ← read_members fuel (String dquote tail);
    Some (JObject members, rest).
Proof. reflexivity. Qed.

(** A whole object with at least one member. *)
Lemma read_value_object (fuel0 : nat) (fs : list (string * string * json)) :
  fs <> [] ->
  Forall (fun f => reads_as fuel0 (snd (fst f)) (snd f)) fs ->
  forall fuel s, S (length fs + fuel0) <= fuel ->
    read_value fuel (object (fields_text fs) +:+ s) = Some (JObject (fields_members fs), s).
Proof.
  intros Hne Hall [| fuel] s Hfuel; [lia |].
  unfold object. rewrite !append_assoc. change ("}" +:+ s) with (String "}" s).
  change ("{" +:+ ?x) with (String "{" x).
  pose proof (read_members_fields fuel0 fs Hne Hall fuel s ltac:(lia)) as Hmembers.
  destruct fs as [| [[name vt] v] fs]; [congruence |].
  assert (Hhead : exists tail,
    String.concat "," (fields_text ((name, vt, v) :: fs)) +:+ String "}" s = String dquote tail).
  { destruct fs as [| f fs'].
    - cbn [fields_text map String.concat fst snd]. unfold field, quote.
      rewrite !append_cons. eauto.
    - change (String.concat "," (fields_text ((name, vt, v) :: f :: fs')))
        with (field name vt +:+ "," +:+ String.concat "," (fields_text (f :: fs'))).
      unfold field at 1, quote at 1. rewrite !append_cons. eauto. }
  destruct Hhead as [tail Htail]. rewrite Htail in *.
  now rewrite read_value_brace, Hmembers.
Qed.

(** *** The three structs *)

Lemma reads_as_mono (fuel0 fuel1 : nat) (vt : string) (v : json) :
  fuel0 <= fuel1 -> reads_as fuel0 vt v -> reads_as fuel1 vt v.
Proof. intros Hle Hv fuel s Hfuel Hs. apply Hv; [lia | exact Hs]. Qed.

Ltac reads_as_fields :=
  repeat constructor; cbn [fst snd];
  first [ apply (reads_as_mono 1), reads_as_quote; lia
        | apply (reads_as_mono 1), reads_as_number; lia ].

Lemma reads_as_PersonalInfo (p : PersonalInfo) :
  reads_as 7 (Marshal_PersonalInfo p)
    (JObject (fields_members (fields_PersonalInfo p))).
Proof.
  intros fuel s Hfuel _.
  apply (read_value_object 1 (fields_PersonalInfo p)); [discriminate | | cbn; lia].
  reads_as_fields.
Qed.

Lemma reads_as_FinancialInfo (f : FinancialInfo) :
  reads_as 7 (Marshal_FinancialInfo f)
    (JObject (fields_members (fields_FinancialInfo f))).
Proof.
  intros fuel s Hfuel _.
  apply (read_value_object 1 (fields_FinancialInfo f)); [discriminate | | cbn; lia].
  reads_as_fields.
Qed.

Lemma length_field (name vt : string) : 3 <= String.length (field name vt).
Proof.
  unfold field, quote. rewrite append_cons. cbn [String.length].
  rewrite !length_append. cbn [String.length]. lia.
Qed.

Lemma length_fields (fs : list (string * string * json)) :
  3 * length fs <= String.length (String.concat "," (fields_text fs)).
Proof.
  induction fs as [| [[name vt] v] fs IH]; [cbn; lia |].
  pose proof (length_field name vt) as Hfield.
  destruct fs as [| f fs'].
  - cbn [fields_text map String.concat fst snd length]. lia.
  - change (String.concat "," (fields_text ((name, vt, v) :: f :: fs')))
      with (field name vt +:+ "," +:+ String.concat "," (fields_text (f :: fs'))).
    rewrite !length_append. cbn [length] in *. lia.
Qed.

Lemma length_Marshal_LoanApplication (la : LoanApplication) :
  10 <= String.length (Marshal_LoanApplication la).
Proof.
  change (Marshal_LoanApplication la) with (object (fields_text (fields_LoanApplication la))).
  unfold object. rewrite !length_append.
  pose proof (length_fields (fields_LoanApplication la)) as Hlen.
  cbn [fields_LoanApplication length] in Hlen. lia.
Qed.

(** The encoding of a record is JSON for the members of the record, in order. *)
Lemma parse_Marshal_LoanApplication (la : LoanApplication) :
  parse (Marshal_LoanApplication la)
    = Some (JObject (fields_members (fields_LoanApplication la))).
Proof.
  unfold parse.
  pose proof (length_Marshal_LoanApplication la) as Hlen.
  assert (Hfuel : 22 <= 2 * String.length (Marshal_LoanApplication la) + 2) by lia.
  revert Hfuel. generalize (2 * String.length (Marshal_LoanApplication la) + 2).
  intros fuel Hfuel. clear Hlen.
  rewrite <- (append_nil_r (Marshal_LoanApplication la)).
  change (Marshal_LoanApplication la)
    with (object (fields_text (fields_LoanApplication la))).
  rewrite (read_value_object 7 (fields_LoanApplication la));
    [reflexivity | discriminate | | exact Hfuel].
  repeat constructor; cbn [fst snd];
    first [ apply (reads_as_mono 1), reads_as_quote; lia
          | apply (reads_as_mono 1), reads_as_number; lia
          | apply reads_as_PersonalInfo
          | apply reads_as_FinancialInfo ].
Qed.

Lemma into_int_number (z old : Z) :
  int64 z -> into_int (JNumber (number z)) old = (z, None).
Proof. intros Hz. unfold into_int. now rewrite parse_int_number. Qed.

(** Decoding those members gives the record back, whatever struct they are
    decoded into. *)
Lemma into_struct_fields (la w : LoanApplication) :
  ints_in_range la ->
  into_struct "main.LoanApplication" step_LoanApplication
    (JObject (fields_members (fields_LoanApplication la))) w = (la, None).
Proof.
  destruct la as [? ? ? ? ? ? [? ? ? ? ?] [? ? ? ?] ? ? ? ? ? ?].
  intros (H1 & H2 & H3 & H4 & H5 & H6 & H7). cbn [RequestedAmount FairMarketValue
    ApprovedAmount FinancialInfo_ MonthlySalary MonthlyRent OtherExpenditure
    MonthlyLoanPayment] in *.
  lazy -[into_int number].
  rewrite !into_int_number by assumption.
  reflexivity.
Qed.

Lemma string_of_bytes_of (s : string) : string_of (bytes_of s) = s.
Proof. apply string_of_list_byte_of_string. Qed.

(** Decoding follows encoding: the round trip of the codec. *)
Lemma Unmarshal_Marshal (la w : LoanApplication) :
  ints_in_range la -> Unmarshal (fst (Marshal la)) w = (la, None).
Proof.
  intros Hla. unfold Unmarshal, Marshal. cbn [fst].
  rewrite string_of_bytes_of, parse_Marshal_LoanApplication.
  now apply into_struct_fields.
Qed.

(** *** Decoded integers are in range *)

Lemma parse_int_range (literal : string) (z : Z) :
  parse_int literal = Some z -> int64 z.
Proof.
  unfold parse_int, int64.
  destruct (Z.of_int <$> NilZero.int_of_string literal) as [z' |]; [| discriminate].
  cbn [mbind option_bind].
  destruct (Z.leb_spec (- 2 ^ 63) z'); [| discriminate].
  destruct (Z.ltb_spec z' (2 ^ 63)); [| discriminate].
  intros [= <-]. lia.
Qed.

Lemma into_int_range (v : json) (old : Z) :
  int64 old -> int64 (fst (into_int v old)).
Proof.
  intros Hold. destruct v; try exact Hold. cbn [into_int].
  destruct (parse_int literal) as [z |] eqn:Hz; [| exact Hold].
  now apply (parse_int_range literal).
Qed.

Lemma member_invariant {A : Type} (P : A -> Prop) (key name : string)
    (into : json -> A -> A * option error) (v : json) (old : A) :
  (forall v a, P a -> P (fst (into v a))) ->
  P old -> P (fst (member key name into v old)).
Proof.
  intros Hinto Hold. unfold member.
  destruct (equalFold key name); [now apply Hinto | exact Hold].
Qed.

(** A property that every step keeps is kept by the walk over the members. *)
Lemma into_struct_invariant {A : Type} (P : A -> Prop) (go_type : string)
    (step : string -> json -> A -> A * option error) :
  (forall key v a, P a -> P (fst (step key v a))) ->
  forall v old, P old -> P (fst (into_struct go_type step v old)).
Proof.
  intros Hstep v old Hold. destruct v as [| | | | | members]; try exact Hold.
  cbn [into_struct].
  generalize (@None error). revert old Hold.
  induction members as [| [key v] members IH]; intros old Hold e; [exact Hold |].
  cbn [fold_left fst snd].
  specialize (Hstep key v old Hold).
  destruct (step key v old) as [x e']. now apply IH.
Qed.

Lemma step_FinancialInfo_range (key : string) (v : json) (f : FinancialInfo) :
  FinancialInfo_in_range f -> FinancialInfo_in_range (fst (step_FinancialInfo key v f)).
Proof.
  intros (H1 & H2 & H3 & H4). unfold step_FinancialInfo, FinancialInfo_in_range.
  cbn [fst MonthlySalary MonthlyRent OtherExpenditure MonthlyLoanPayment].
  repeat split; apply (member_invariant int64); auto using into_int_range.
Qed.

Lemma step_LoanApplication_range (key : string) (v : json) (la : LoanApplication) :
  ints_in_range la -> ints_in_range (fst (step_LoanApplication key v la)).
Proof.
  intros (H1 & H2 & H3 & H4). unfold step_LoanApplication, ints_in_range.
  cbn [fst RequestedAmount FairMarketValue ApprovedAmount FinancialInfo_].
  split; [| split; [| split]];
    try (apply (member_invariant int64); auto using into_int_range).
  apply (member_invariant FinancialInfo_in_range); [| exact H4].
  intros v' f Hf. now apply into_struct_invariant; [apply step_FinancialInfo_range |].
Qed.

(** Decoding into a record whose integers are in range leaves them in range. *)
Lemma Unmarshal_range (data : ByteSlice) (w : LoanApplication) :
  ints_in_range w -> ints_in_range (fst (Unmarshal data w)).
Proof.
  intros Hw. unfold Unmarshal.
  destruct (parse (string_of data)) as [j |]; [| exact Hw].
  now apply into_struct_invariant; [apply step_LoanApplication_range |].
Qed.

Lemma zero_in_range : ints_in_range zeroLoanApplication.
Proof. repeat split; cbn; lia. Qed.

End GoJSONFacts.

(** The JSON codec gives back every record an update writes: the integers
    of a decoded record are in range, and assigning the status keeps them. *)
Lemma GoJSON_round_trips (stored : bytes) (status : string) :
  round_trips (codec := GoJSON.encoding_json)
    (set_Status (decoded (codec := GoJSON.encoding_json) stored) status).
Proof.
  intros out Hout. cbn in Hout. injection Hout as <-.
  assert (Hrange : GoJSON.ints_in_range
            (set_Status (decoded (codec := GoJSON.encoding_json) stored) status)).
  { apply (GoJSONFacts.Unmarshal_range (Some stored) zeroLoanApplication
             GoJSONFacts.zero_in_range). }
  exact (f_equal fst (GoJSONFacts.Unmarshal_Marshal _ zeroLoanApplication Hrange)).
Qed.

(** ** Reading *)

(** C1: reading an id under which the ledger holds no record fails with the
    gateway's NotFound error, through [GetLoanApplication] itself and through
    the [Query] entry point; no value is returned and the gateway is left as
    it was. *)
Theorem Read_absent_id_fails_NotFound (w : World) (id : string) (rest : list string) :
  ledger w !! id = None ->
  GetLoanApplication w (id :: rest) = (w, (None, Some (NotFound id))) /\
  Query w "GetLoanApplication" (id :: rest) = (w, (None, Some (NotFound id))).
Proof.
  intros Habsent. rewrite Query_GetLoanApplication.
  split; apply (GetLoanApplication_error w id rest None), World_get_absent, Habsent.
Qed.

Lemma Read_absent_id_fails_NotFound_witness :
  ledger home_loan_admin !! "LA1" = None /\
  GetLoanApplication home_loan_admin ["LA1"]
    = (home_loan_admin, (None, Some (NotFound "LA1"))) /\
  Query home_loan_admin "GetLoanApplication" ["LA1"]
    = (home_loan_admin, (None, Some (NotFound "LA1"))).
Proof.
  split; [vm_compute; reflexivity |].
  apply (Read_absent_id_fails_NotFound home_loan_admin "LA1" []).
  vm_compute; reflexivity.
Defined.

(** C4: when a creation dispatched by [Invoke] succeeds, a following read of
    the same id through [Query] returns exactly the bytes of the record
    argument. *)
Theorem Create_then_Read_round_trip (w w' : World) (id record : string)
    (rest : list string) :
  Invoke w "CreateLoanApplication" (id :: record :: rest) = (w', Some (None, None)) ->
  Query w' "GetLoanApplication" [id] = (w', (bytes_of record, None)).
Proof.
  intros Hcreate. unfold Invoke in Hcreate.
  cbn [String.eqb Ascii.eqb Bool.eqb] in Hcreate.
  destruct (GetCertAttribute w "username") as [username eu].
  destruct (GetCertAttribute w "role") as [role er].
  destruct (String.eqb role "Bank_Home_Loan_Admin"); [| discriminate].
  destruct (CreateLoanApplication w (id :: record :: rest)) as [w1 r] eqn:Hc.
  injection Hcreate as -> ->.
  apply CreateLoanApplication_success in Hc. subst w'.
  rewrite Query_GetLoanApplication.
  apply GetLoanApplication_value, World_get_present.
  cbn. apply lookup_insert_eq.
Qed.

Lemma Create_then_Read_round_trip_witness :
  Invoke home_loan_admin "CreateLoanApplication" ["LA1"; submitted_LA1]
    = (created_LA1, Some (None, None)) /\
  Query created_LA1 "GetLoanApplication" ["LA1"]
    = (created_LA1, (bytes_of submitted_LA1, None)).
Proof.
  split; [vm_compute; reflexivity |].
  apply (Create_then_Read_round_trip home_loan_admin created_LA1 "LA1" submitted_LA1 []).
  vm_compute; reflexivity.
Defined.

(** C10: for a function name other than GetLoanApplication, [Query] returns
    the nil value and the nil error whatever the arguments, and hands the
    stub back without having called it. *)
Theorem Query_other_function_nil (S : Type) (stub_ops : ChaincodeStubInterface S)
    (stub : S) (function : string) (args : list string) :
  function <> "GetLoanApplication" ->
  Query stub function args = (stub, (None, None)).
Proof.
  intros Hother. unfold Query.
  destruct (String.eqb_spec function "GetLoanApplication") as [Heq | _].
  - contradiction.
  - reflexivity.
Qed.

Lemma Query_other_function_nil_witness :
  Query home_loan_admin "ListLoanApplications" ["LA1"] = (home_loan_admin, (None, None)).
Proof.
  apply (Query_other_function_nil World World_stub home_loan_admin
           "ListLoanApplications" ["LA1"]).
  discriminate.
Defined.

(** ** Creating *)

(** C6: when the role attribute of the caller's credential is anything but
    the bytes of Bank_Home_Loan_Admin, a missing attribute included, a
    creation dispatched by [Invoke] ends in the error whose text is the
    caller's username, then [ with role ], then the role, then
    [ does not have correct permissions]; the gateway is left as it was. *)
Theorem Create_denied_without_admin_role (w : World) (args : list string) :
  credential w !! "role" <> Some (list_byte_of_string "Bank_Home_Loan_Admin") ->
  Invoke w "CreateLoanApplication" args =
    (w, Some (None, Some (errors_New
       (attribute_text w "username" +:+ " with role " +:+ attribute_text w "role"
        +:+ " does not have correct permissions")))).
Proof.
  intros Hrole. rewrite <- !GetCertAttribute_World.
  apply Invoke_Create_denied.
  rewrite GetCertAttribute_World. intros Hadmin. apply Hrole.
  apply attribute_text_inj; [exact Hadmin | discriminate].
Qed.

Lemma Create_denied_without_admin_role_witness :
  credential loan_officer !! "role" = Some (list_byte_of_string "Loan_Officer") /\
  credential anonymous !! "role" = None /\
  Invoke loan_officer "CreateLoanApplication" ["LA1"; submitted_LA1] =
    (loan_officer,
     Some (None, Some (errors_New "bob with role Loan_Officer does not have correct permissions"))) /\
  Invoke anonymous "CreateLoanApplication" ["LA1"; submitted_LA1] =
    (anonymous,
     Some (None, Some (errors_New " with role  does not have correct permissions"))).
Proof.
  split; [vm_compute; reflexivity |]. split; [vm_compute; reflexivity |]. split.
  - apply (Create_denied_without_admin_role loan_officer ["LA1"; submitted_LA1]).
    vm_compute; discriminate.
  - apply (Create_denied_without_admin_role anonymous ["LA1"; submitted_LA1]).
    vm_compute; discriminate.
Defined.

(** C8: when the host accepts the write of a creation and refuses its event,
    the creation returns the event's error, and the record it wrote is in
    the ledger of the gateway it leaves behind; the same holds of the call
    as [Invoke] dispatches it for a caller with the administrator's role. *)
Theorem Create_event_failure_keeps_record (w : World) (id record : string)
    (rest : list string) :
  put_refused w id (list_byte_of_string record) = false ->
  event_refused w "evtSender" (list_byte_of_string (creationNotice id)) = true ->
  exists w',
    CreateLoanApplication w (id :: record :: rest)
      = (w', (None, Some (WriteFailed "evtSender"))) /\
    ledger w' !! id = Some (list_byte_of_string record) /\
    (attribute_text w "role" = "Bank_Home_Loan_Admin" ->
     Invoke w "CreateLoanApplication" (id :: record :: rest)
       = (w', Some (None, Some (WriteFailed "evtSender")))).
Proof.
  intros Hput Hevent.
  assert (Hcreate : CreateLoanApplication w (id :: record :: rest)
            = (store w id (list_byte_of_string record),
               (None, Some (WriteFailed "evtSender")))).
  { rewrite CreateLoanApplication_World, Hput. cbn zeta. now rewrite Hevent. }
  exists (store w id (list_byte_of_string record)).
  split; [exact Hcreate |]. split.
  - cbn. apply lookup_insert_eq.
  - intros Hrole. rewrite Invoke_Create_admitted, Hcreate; [reflexivity |].
    now rewrite GetCertAttribute_World.
Qed.

Lemma Create_event_failure_keeps_record_witness :
  exists w',
    CreateLoanApplication (refusing_events home_loan_admin) ["LA1"; submitted_LA1]
      = (w', (None, Some (WriteFailed "evtSender"))) /\
    ledger w' !! "LA1" = Some (list_byte_of_string submitted_LA1) /\
    Invoke (refusing_events home_loan_admin) "CreateLoanApplication"
      ["LA1"; submitted_LA1]
      = (w', Some (None, Some (WriteFailed "evtSender"))).
Proof.
  destruct (Create_event_failure_keeps_record (refusing_events home_loan_admin)
              "LA1" submitted_LA1 []) as (w' & Hcreate & Hledger & Hinvoke);
    [vm_compute; reflexivity | vm_compute; reflexivity |].
  exists w'. split; [exact Hcreate |]. split; [exact Hledger |].
  apply Hinvoke. vm_compute; reflexivity.
Defined.

(** ** Updating *)

Section UpdateClaims.
Context {codec : Codec}.

(** C2: updating an id under which the ledger holds no record fails with the
    error of the read, and the gateway that comes back is the one that went
    in: no key was written and no event was set. *)
Theorem Update_absent_id_writes_nothing (w : World) (id status : string)
    (rest : list string) :
  ledger w !! id = None ->
  UpdateLoanApplication w (id :: status :: rest) = (w, (None, Some (NotFound id))).
Proof.
  intros Habsent.
  apply (UpdateLoanApplication_read_error w id status rest None).
  now apply World_get_absent.
Qed.

(** Whatever the decoding reported, an update whose write and event the
    host accepts stores the encoding of the struct as the decoding left it,
    with the new status, and returns no error. *)
Lemma Update_ignores_decode_error (w : World) (id status : string)
    (rest : list string) (stored : bytes) (la : LoanApplication) (e : error)
    (out : ByteSlice) :
  ledger w !! id = Some stored ->
  json_Unmarshal (Some stored) zeroLoanApplication = (la, Some e) ->
  json_Marshal (set_Status la status) = (out, None) ->
  put_refused w id (content out) = false ->
  event_refused w "evtSender" (list_byte_of_string (updateNotice id)) = false ->
  UpdateLoanApplication w (id :: status :: rest) =
    (emit (store w id (content out)) "evtSender"
       (list_byte_of_string (updateNotice id)), (None, None)).
Proof.
  intros Hstored Hdecode Hencode Hput Hevent.
  rewrite (UpdateLoanApplication_World _ _ _ _ _ Hstored).
  unfold decoded. rewrite Hdecode. cbn [fst]. rewrite Hencode, Hput. cbn zeta.
  now rewrite Hevent.
Qed.

End UpdateClaims.

Lemma Update_absent_id_writes_nothing_witness :
  ledger home_loan_admin !! "LA1" = None /\
  UpdateLoanApplication (codec := GoJSON.encoding_json) home_loan_admin ["LA1"; "Approved"]
    = (home_loan_admin, (None, Some (NotFound "LA1"))).
Proof.
  split; [vm_compute; reflexivity |].
  apply (Update_absent_id_writes_nothing (codec := GoJSON.encoding_json)
           home_loan_admin "LA1" "Approved" []).
  vm_compute; reflexivity.
Defined.

(** C5, as stated, fails: LA1 is created from bytes that decode with no
    error and carry the member [coApplicant]; the update to Approved
    succeeds; the bytes then stored under LA1 have no member [coApplicant]
    any more, and have a member [PropertyID] that the created bytes did not
    have. *)
Lemma Update_drops_undeclared_member :
  Invoke home_loan_admin "CreateLoanApplication" ["LA1"; co_applicant_LA1]
    = (created_with_member_LA1, Some (None, None)) /\
  snd (GoJSON.Unmarshal (bytes_of co_applicant_LA1) zeroLoanApplication) = None /\
  UpdateLoanApplication (codec := GoJSON.encoding_json) created_with_member_LA1
    ["LA1"; "Approved"]
    = (approved_without_member_LA1, (None, None)) /\
  ledger created_with_member_LA1 !! "LA1" = Some (list_byte_of_string co_applicant_LA1) /\
  ledger approved_without_member_LA1 !! "LA1"
    = Some (list_byte_of_string (blank_record "LA1" "Approved")) /\
  stored_member "coApplicant" (list_byte_of_string co_applicant_LA1)
    = Some (GoJSON.JString "Bob") /\
  stored_member "coApplicant" (list_byte_of_string (blank_record "LA1" "Approved")) = None /\
  stored_member "PropertyID" (list_byte_of_string co_applicant_LA1) = None /\
  stored_member "PropertyID" (list_byte_of_string (blank_record "LA1" "Approved"))
    = Some (GoJSON.JString "").
Proof. repeat split; vm_compute; reflexivity. Qed.

(** C5, amended: when the bytes stored under an id decode with no error and
    the update succeeds, the bytes then stored under the id are the encoding
    of the decoded record with the new status; they decode with no error to
    a record that carries the new status and agrees with the record decoded
    before on every other field of the schema; and every other key of the
    ledger holds what it held.  This over the JSON codec. *)
Theorem Update_reencodes_with_new_Status (w w' : World) (id status : string)
    (rest : list string) (stored : bytes) (before : LoanApplication) :
  ledger w !! id = Some stored ->
  GoJSON.Unmarshal (Some stored) zeroLoanApplication = (before, None) ->
  UpdateLoanApplication (codec := GoJSON.encoding_json) w (id :: status :: rest)
    = (w', (None, None)) ->
  exists stored' after,
    ledger w' !! id = Some stored' /\
    stored' = list_byte_of_string
                (GoJSON.Marshal_LoanApplication (set_Status before status)) /\
    GoJSON.Unmarshal (Some stored') zeroLoanApplication = (after, None) /\
    Status after = status /\
    same_but_Status after before /\
    forall key, key <> id -> ledger w' !! key = ledger w !! key.
Proof.
  intros Hstored Hdecode Hupdate.
  destruct (UpdateLoanApplication_success _ _ _ _ _ _ Hstored Hupdate)
    as (out & Hencode & ->).
  assert (Hbefore : decoded (codec := GoJSON.encoding_json) stored = before).
  { unfold decoded. cbn [json_Unmarshal GoJSON.encoding_json]. now rewrite Hdecode. }
  rewrite Hbefore in Hencode. cbn in Hencode. injection Hencode as <-.
  assert (Hrange : GoJSON.ints_in_range (set_Status before status)).
  { rewrite <- Hbefore.
    apply (GoJSONFacts.Unmarshal_range (Some stored) zeroLoanApplication
             GoJSONFacts.zero_in_range). }
  exists (list_byte_of_string (GoJSON.Marshal_LoanApplication (set_Status before status))),
         (set_Status before status).
  split; [cbn; apply lookup_insert_eq |].
  split; [reflexivity |].
  split; [exact (GoJSONFacts.Unmarshal_Marshal _ zeroLoanApplication Hrange) |].
  split; [reflexivity |].
  split; [apply same_but_Status_set |].
  intros key Hkey. cbn. now apply lookup_insert_ne.
Qed.

Lemma Update_reencodes_with_new_Status_witness :
  ledger created_with_member_LA1 !! "LA1" = Some (list_byte_of_string co_applicant_LA1) /\
  UpdateLoanApplication (codec := GoJSON.encoding_json) created_with_member_LA1
    ["LA1"; "Approved"]
    = (approved_without_member_LA1, (None, None)) /\
  exists stored' after,
    ledger approved_without_member_LA1 !! "LA1" = Some stored' /\
    stored' = list_byte_of_string
                (GoJSON.Marshal_LoanApplication
                   (set_Status (fst (GoJSON.Unmarshal (bytes_of co_applicant_LA1)
                                       zeroLoanApplication)) "Approved")) /\
    GoJSON.Unmarshal (Some stored') zeroLoanApplication = (after, None) /\
    Status after = "Approved" /\
    same_but_Status after
      (fst (GoJSON.Unmarshal (bytes_of co_applicant_LA1) zeroLoanApplication)) /\
    forall key, key <> "LA1" ->
      ledger approved_without_member_LA1 !! key = ledger created_with_member_LA1 !! key.
Proof.
  split; [vm_compute; reflexivity |]. split; [vm_compute; reflexivity |].
  apply (Update_reencodes_with_new_Status created_with_member_LA1
           approved_without_member_LA1 "LA1" "Approved" []
           (list_byte_of_string co_applicant_LA1)).
  - vm_compute; reflexivity.
  - vm_compute; reflexivity.
  - vm_compute; reflexivity.
Defined.

(** C3: a creation can leave bytes under an id that are not JSON; on them
    the decoding reports an error and leaves the struct at its zero value,
    yet the update goes on: it returns no error, and the ledger then holds
    under the id the encoding of an otherwise empty record with the new
    status. *)
Theorem Update_overwrites_undecodable_record :
  Invoke home_loan_admin "CreateLoanApplication" ["LA1"; "not json"]
    = (undecodable_LA1, Some (None, None)) /\
  GoJSON.Unmarshal (bytes_of "not json") zeroLoanApplication
    = (zeroLoanApplication, Some (MalformedRecord "json: syntax error")) /\
  UpdateLoanApplication (codec := GoJSON.encoding_json) undecodable_LA1
    ["LA1"; "Approved"]
    = (emit (store undecodable_LA1 "LA1" (list_byte_of_string (blank_record "" "Approved")))
         "evtSender" (list_byte_of_string (updateNotice "LA1")),
       (None, None)).
Proof.
  split; [vm_compute; reflexivity |].
  split; [vm_compute; reflexivity |].
  apply (Update_ignores_decode_error (codec := GoJSON.encoding_json) undecodable_LA1
           "LA1" "Approved" [] (list_byte_of_string "not json") zeroLoanApplication
           (MalformedRecord "json: syntax error")
           (bytes_of (blank_record "" "Approved")));
    vm_compute; reflexivity.
Qed.

(** ** Dispatch and events *)

(** C7: an invocation named UpdateLoanApplication reaches no update through
    any entry point, over any stub: [Invoke] compares the name with
    CreateLoanApplication only and ends without a result, [Query] compares it
    with GetLoanApplication only and returns nil, [Init] returns nil; each
    hands the stub back untouched. *)
Theorem UpdateLoanApplication_is_not_dispatched (S : Type)
    (stub_ops : ChaincodeStubInterface S) (stub : S) (args : list string) :
  Invoke stub "UpdateLoanApplication" args = (stub, None) /\
  Query stub "UpdateLoanApplication" args = (stub, (None, None)) /\
  Init stub "UpdateLoanApplication" args = (stub, (None, None)).
Proof. repeat split. Qed.

(** Neither notice is the encoding of a [customEvent]: the encoding opens
    with a quoted member name, the notices with a bare [eventType]. *)
Lemma notices_are_not_customEvents (id : string) (e : customEvent) :
  GoJSON.Marshal_customEvent e <> creationNotice id /\
  GoJSON.Marshal_customEvent e <> updateNotice id.
Proof. split; intros Heq; cbn in Heq; discriminate Heq. Qed.

(** Nor are they JSON text at all. *)
Lemma notices_are_not_JSON (id : string) :
  GoJSON.parse (creationNotice id) = None /\ GoJSON.parse (updateNotice id) = None.
Proof.
  split; unfold GoJSON.parse;
    match goal with |- context [GoJSON.read_value ?fuel _] =>
      replace fuel with (S (S (fuel - 2))) by (cbn; lia)
    end; reflexivity.
Qed.

(** C9: the creation and the update of LA1, both successful, each set one
    event on channel evtSender; its payload is a hand-written text whose kind
    stands under [eventType], which is not JSON and is the encoding of no
    [customEvent], the schema with the members [type] and [description]. *)
Theorem events_of_LA1_are_not_customEvents :
  Invoke home_loan_admin "CreateLoanApplication" ["LA1"; submitted_LA1]
    = (created_LA1, Some (None, None)) /\
  events created_LA1 =
    [("evtSender", list_byte_of_string
        "{eventType: 'loanApplicationCreation', description: 'LA1 Successfully created'}")] /\
  UpdateLoanApplication (codec := GoJSON.encoding_json) created_LA1 ["LA1"; "Approved"]
    = (approved_LA1, (None, None)) /\
  events approved_LA1 =
    [("evtSender", list_byte_of_string
        "{eventType: 'loanApplicationCreation', description: 'LA1 Successfully created'}");
     ("evtSender", list_byte_of_string
        "{eventType: 'loanApplicationUpdate', description: 'LA1 Successfully updated'}")] /\
  GoJSON.parse
    "{eventType: 'loanApplicationCreation', description: 'LA1 Successfully created'}" = None /\
  GoJSON.parse
    "{eventType: 'loanApplicationUpdate', description: 'LA1 Successfully updated'}" = None /\
  forall e : customEvent,
    GoJSON.Marshal_customEvent e <>
      "{eventType: 'loanApplicationCreation', description: 'LA1 Successfully created'}" /\
    GoJSON.Marshal_customEvent e <>
      "{eventType: 'loanApplicationUpdate', description: 'LA1 Successfully updated'}".
Proof.
  split; [vm_compute; reflexivity |].
  split; [vm_compute; reflexivity |].
  split; [vm_compute; reflexivity |].
  split; [vm_compute; reflexivity |].
  split; [apply (notices_are_not_JSON "LA1") |].
  split; [apply (notices_are_not_JSON "LA1") |].
  intros e. apply (notices_are_not_customEvents "LA1" e).
Qed.

(** ** Further properties of the handler *)

(** *** Argument counts *)

Section Arguments.
Context {S : Type} {stub_ops : ChaincodeStubInterface S} {codec : Codec}.

(** X1: with fewer than two arguments a creation returns the error
    [Expected at least 2 arguments] and hands the stub back without having
    called it. *)
Theorem Create_needs_two_arguments (stub : S) (args : list string) :
  length args < 2 ->
  CreateLoanApplication stub args
    = (stub, (None, Some (errors_New "Expected at least 2 arguments"))).
Proof.
  intros Hlen. destruct args as [| id [| record rest]]; cbn in Hlen; try reflexivity. lia.
Qed.

(** X2: with no argument a read returns the error
    [Missing loan application ID], directly and through [Query], and hands
    the stub back without having called it. *)
Theorem Read_needs_an_argument (stub : S) (args : list string) :
  length args < 1 ->
  GetLoanApplication stub args
    = (stub, (None, Some (errors_New "Missing loan application ID"))) /\
  Query stub "GetLoanApplication" args
    = (stub, (None, Some (errors_New "Missing loan application ID"))).
Proof.
  intros Hlen. destruct args as [| id rest]; cbn in Hlen; [| lia]. split; reflexivity.
Qed.

(** X3: with fewer than two arguments an update returns the error
    [Expected at least 2 arguments for loan application update] and hands the
    stub back without having called it. *)
Theorem Update_needs_two_arguments (stub : S) (args : list string) :
  length args < 2 ->
  UpdateLoanApplication stub args
    = (stub, (None, Some (errors_New
         "Expected at least 2 arguments for loan application update"))).
Proof.
  intros Hlen. destruct args as [| id [| status rest]]; cbn in Hlen; try reflexivity. lia.
Qed.

End Arguments.

Lemma Create_needs_two_arguments_witness :
  length ["LA1"] < 2 /\
  CreateLoanApplication home_loan_admin ["LA1"]
    = (home_loan_admin, (None, Some (errors_New "Expected at least 2 arguments"))).
Proof.
  split; [cbn; lia |].
  apply (Create_needs_two_arguments home_loan_admin ["LA1"]). cbn; lia.
Defined.

Lemma Read_needs_an_argument_witness :
  GetLoanApplication created_LA1 []
    = (created_LA1, (None, Some (errors_New "Missing loan application ID"))) /\
  Query created_LA1 "GetLoanApplication" []
    = (created_LA1, (None, Some (errors_New "Missing loan application ID"))).
Proof. apply (Read_needs_an_argument created_LA1 []). cbn; lia. Defined.

Lemma Update_needs_two_arguments_witness :
  UpdateLoanApplication (codec := GoJSON.encoding_json) created_LA1 ["LA1"]
    = (created_LA1, (None, Some (errors_New
         "Expected at least 2 arguments for loan application update"))).
Proof.
  apply (Update_needs_two_arguments (codec := GoJSON.encoding_json) created_LA1 ["LA1"]).
  cbn; lia.
Defined.

(** *** Writes *)

Lemma writes_at_most_CreateLoanApplication (w : World) (args : list string) :
  writes_at_most args (ledger w) (ledger (fst (CreateLoanApplication w args))).
Proof.
  destruct args as [| id [| record rest]]; try (now left).
  rewrite CreateLoanApplication_World.
  destruct (put_refused w id _); [now left |]. cbn zeta.
  destruct (event_refused w "evtSender" _); right; now exists id, (list_byte_of_string record).
Qed.

Lemma writes_at_most_Invoke (w : World) (function : string) (args : list string) :
  writes_at_most args (ledger w) (ledger (fst (Invoke w function args))).
Proof.
  unfold Invoke. destruct (String.eqb function "CreateLoanApplication"); [| now left].
  destruct (GetCertAttribute w "username") as [username eu].
  destruct (GetCertAttribute w "role") as [role er].
  destruct (String.eqb role "Bank_Home_Loan_Admin"); [| now left].
  pose proof (writes_at_most_CreateLoanApplication w args) as Hcreate.
  now destruct (CreateLoanApplication w args).
Qed.

Lemma writes_at_most_UpdateLoanApplication {codec : Codec} (w : World) (args : list string) :
  writes_at_most args (ledger w) (ledger (fst (UpdateLoanApplication w args))).
Proof.
  destruct args as [| id [| status rest]]; try (now left).
  destruct (ledger w !! id) as [stored |] eqn:Hstored.
  - rewrite (UpdateLoanApplication_World _ _ _ _ _ Hstored).
    destruct (json_Marshal _) as [out [e |]]; [now left |].
    destruct (put_refused w id _); [now left |]. cbn zeta.
    destruct (event_refused w "evtSender" _); right; now exists id, (content out).
  - left. now rewrite (UpdateLoanApplication_read_error w id status rest None
                         (NotFound id) (World_get_absent w id Hstored)).
Qed.

Lemma writes_at_most_frame (args : list string) (before after : gmap string bytes)
    (key : string) :
  writes_at_most args before after -> head args <> Some key ->
  after !! key = before !! key.
Proof.
  intros [-> | (id & value & Hid & ->)] Hkey; [reflexivity |].
  apply lookup_insert_ne. intros ->. now apply Hkey.
Qed.

(** X6: whatever the function name, the caller and the outcome, [Invoke]
    leaves every key of the ledger other than its first argument as it
    found it. *)
Theorem Invoke_leaves_other_keys (w : World) (function : string) (args : list string)
    (key : string) :
  head args <> Some key ->
  ledger (fst (Invoke w function args)) !! key = ledger w !! key.
Proof.
  intros Hkey. exact (writes_at_most_frame args _ _ key (writes_at_most_Invoke w function args) Hkey).
Qed.

Lemma Invoke_leaves_other_keys_witness :
  ledger (fst (Invoke created_LA1 "CreateLoanApplication" ["LA2"; "{}"])) !! "LA1"
    = ledger created_LA1 !! "LA1".
Proof.
  apply (Invoke_leaves_other_keys created_LA1 "CreateLoanApplication" ["LA2"; "{}"] "LA1").
  discriminate.
Defined.

Section Frames.
Context {codec : Codec}.

(** X7: whatever its outcome, an update leaves every key of the ledger other
    than its first argument as it found it. *)
Theorem Update_leaves_other_keys (w : World) (args : list string) (key : string) :
  head args <> Some key ->
  ledger (fst (UpdateLoanApplication w args)) !! key = ledger w !! key.
Proof.
  intros Hkey.
  exact (writes_at_most_frame args _ _ key (writes_at_most_UpdateLoanApplication w args) Hkey).
Qed.

End Frames.

Lemma Update_leaves_other_keys_witness :
  snd (UpdateLoanApplication (codec := GoJSON.encoding_json) two_records
         ["LA1"; "Approved"]) = (None, None) /\
  ledger (fst (UpdateLoanApplication (codec := GoJSON.encoding_json) two_records
                 ["LA1"; "Approved"])) !! "LA1"
    = Some (list_byte_of_string (blank_record "LA1" "Approved")) /\
  ledger (fst (UpdateLoanApplication (codec := GoJSON.encoding_json) two_records
                 ["LA1"; "Approved"])) !! "LA2"
    = ledger two_records !! "LA2".
Proof.
  split; [vm_compute; reflexivity |]. split; [vm_compute; reflexivity |].
  apply (Update_leaves_other_keys (codec := GoJSON.encoding_json) two_records
           ["LA1"; "Approved"] "LA2").
  discriminate.
Defined.

(** *** Authorisation and refusals *)

(** X4: admission looks at the role alone: when the role attribute is the
    bytes of Bank_Home_Loan_Admin, [Invoke] runs the creation and returns
    its stub and its result, whether or not a username can be read. *)
Theorem Create_admitted_on_role_alone (w : World) (args : list string) :
  credential w !! "role" = Some (list_byte_of_string "Bank_Home_Loan_Admin") ->
  Invoke w "CreateLoanApplication" args
    = (fst (CreateLoanApplication w args), Some (snd (CreateLoanApplication w args))).
Proof.
  intros Hrole. apply Invoke_Create_admitted.
  rewrite GetCertAttribute_World. unfold attribute_text. rewrite Hrole.
  apply string_of_list_byte_of_string.
Qed.

Lemma Create_admitted_on_role_alone_witness :
  credential nameless_admin !! "username" = None /\
  Invoke nameless_admin "CreateLoanApplication" ["LA1"; submitted_LA1]
    = (fst (CreateLoanApplication nameless_admin ["LA1"; submitted_LA1]),
       Some (None, None)) /\
  Invoke nameless_admin "CreateLoanApplication" ["LA1"]
    = (nameless_admin, Some (None, Some (errors_New "Expected at least 2 arguments"))).
Proof.
  split; [vm_compute; reflexivity |]. split.
  - rewrite (Create_admitted_on_role_alone nameless_admin ["LA1"; submitted_LA1]);
      vm_compute; reflexivity.
  - rewrite (Create_admitted_on_role_alone nameless_admin ["LA1"]);
      vm_compute; reflexivity.
Defined.

(** X5: when the host refuses the write of a creation, the creation returns
    the error of the write and leaves the gateway as it found it: no record
    and no event. *)
Theorem Create_write_refused (w : World) (id record : string) (rest : list string) :
  put_refused w id (list_byte_of_string record) = true ->
  CreateLoanApplication w (id :: record :: rest) = (w, (None, Some (WriteFailed id))).
Proof. intros Hput. now rewrite CreateLoanApplication_World, Hput. Qed.

Lemma Create_write_refused_witness :
  CreateLoanApplication (refusing_writes home_loan_admin) ["LA1"; submitted_LA1]
    = (refusing_writes home_loan_admin, (None, Some (WriteFailed "LA1"))).
Proof.
  apply (Create_write_refused (refusing_writes home_loan_admin) "LA1" submitted_LA1 []).
  vm_compute; reflexivity.
Defined.

(** X11: a creation with two arguments sets its event exactly when
    it succeeds: either it returns no error and the events are the earlier
    ones followed by one on channel evtSender, whose payload is the creation
    notice of the id, or it returns an error and the events are the earlier
    ones. *)
Theorem Create_sets_event_iff_success (w : World) (id record : string)
    (rest : list string) :
  (snd (CreateLoanApplication w (id :: record :: rest)) = (None, None) /\
   events (fst (CreateLoanApplication w (id :: record :: rest)))
     = (events w ++ [("evtSender", list_byte_of_string (creationNotice id))])%list) \/
  ((exists e, snd (CreateLoanApplication w (id :: record :: rest)) = (None, Some e)) /\
   events (fst (CreateLoanApplication w (id :: record :: rest))) = events w).
Proof.
  rewrite CreateLoanApplication_World.
  destruct (put_refused w id _); [right; eauto |]. cbn zeta.
  destruct (event_refused w "evtSender" _); [right; eauto | left; split; reflexivity].
Qed.

Section UpdateOutcomes.
Context {codec : Codec}.

(** X9: when the host refuses the write of an update, the update returns the
    error of the write and leaves the gateway as it found it. *)
Theorem Update_write_refused (w : World) (id status : string) (rest : list string)
    (stored : bytes) (out : ByteSlice) :
  ledger w !! id = Some stored ->
  json_Marshal (set_Status (decoded stored) status) = (out, None) ->
  put_refused w id (content out) = true ->
  UpdateLoanApplication w (id :: status :: rest) = (w, (None, Some (WriteFailed id))).
Proof.
  intros Hstored Hencode Hput.
  now rewrite (UpdateLoanApplication_World _ _ _ _ _ Hstored), Hencode, Hput.
Qed.

(** X8: when the host accepts the write of an update and refuses its event,
    the update returns the event's error, and the patched record is in the
    ledger of the gateway it leaves behind, with the events as they were. *)
Theorem Update_event_failure_keeps_update (w : World) (id status : string)
    (rest : list string) (stored : bytes) (out : ByteSlice) :
  ledger w !! id = Some stored ->
  json_Marshal (set_Status (decoded stored) status) = (out, None) ->
  put_refused w id (content out) = false ->
  event_refused w "evtSender" (list_byte_of_string (updateNotice id)) = true ->
  exists w',
    UpdateLoanApplication w (id :: status :: rest)
      = (w', (None, Some (WriteFailed "evtSender"))) /\
    ledger w' !! id = Some (content out) /\
    events w' = events w.
Proof.
  intros Hstored Hencode Hput Hevent.
  rewrite (UpdateLoanApplication_World _ _ _ _ _ Hstored), Hencode, Hput. cbn zeta.
  rewrite Hevent. eexists. split; [reflexivity |]. split; [| reflexivity].
  cbn. apply lookup_insert_eq.
Qed.

(** X12: an update with two arguments sets its event exactly when it
    succeeds. *)
Theorem Update_sets_event_iff_success (w : World) (id status : string)
    (rest : list string) :
  (snd (UpdateLoanApplication w (id :: status :: rest)) = (None, None) /\
   events (fst (UpdateLoanApplication w (id :: status :: rest)))
     = (events w ++ [("evtSender", list_byte_of_string (updateNotice id))])%list) \/
  ((exists e, snd (UpdateLoanApplication w (id :: status :: rest)) = (None, Some e)) /\
   events (fst (UpdateLoanApplication w (id :: status :: rest))) = events w).
Proof.
  destruct (ledger w !! id) as [stored |] eqn:Hstored.
  - rewrite (UpdateLoanApplication_World _ _ _ _ _ Hstored).
    destruct (json_Marshal _) as [out [e |]]; [right; eauto |].
    destruct (put_refused w id _); [right; eauto |]. cbn zeta.
    destruct (event_refused w "evtSender" _); [right; eauto | left; split; reflexivity].
  - right. rewrite (UpdateLoanApplication_read_error w id status rest None
                      (NotFound id) (World_get_absent w id Hstored)). eauto.
Qed.

End UpdateOutcomes.

Lemma Update_write_refused_witness :
  UpdateLoanApplication (codec := GoJSON.encoding_json) (refusing_writes created_LA1)
    ["LA1"; "Approved"]
    = (refusing_writes created_LA1, (None, Some (WriteFailed "LA1"))).
Proof.
  apply (Update_write_refused (codec := GoJSON.encoding_json) (refusing_writes created_LA1)
           "LA1" "Approved" [] (list_byte_of_string submitted_LA1)
           (bytes_of (blank_record "LA1" "Approved")));
    vm_compute; reflexivity.
Defined.

Lemma Update_event_failure_keeps_update_witness :
  exists w',
    UpdateLoanApplication (codec := GoJSON.encoding_json) (refusing_events created_LA1)
      ["LA1"; "Approved"]
      = (w', (None, Some (WriteFailed "evtSender"))) /\
    ledger w' !! "LA1" = Some (list_byte_of_string (blank_record "LA1" "Approved")) /\
    events w' = events (refusing_events created_LA1).
Proof.
  apply (Update_event_failure_keeps_update (codec := GoJSON.encoding_json)
           (refusing_events created_LA1) "LA1" "Approved" []
           (list_byte_of_string submitted_LA1)
           (bytes_of (blank_record "LA1" "Approved")));
    vm_compute; reflexivity.
Defined.

(** *** Sequences of calls *)

Section Sequences.
Context {codec : Codec}.

(** X13: of two successful updates of one id in a row only the second
    shows: the ledger they leave is the ledger a single update to the second
    status leaves, and that single update succeeds too; this for a codec
    that gives the record written first back from its encoding. *)
Theorem Update_twice_is_last_Update (w w1 w2 : World) (id status1 status2 : string)
    (rest1 rest2 : list string) (stored : bytes) :
  ledger w !! id = Some stored ->
  UpdateLoanApplication w (id :: status1 :: rest1) = (w1, (None, None)) ->
  UpdateLoanApplication w1 (id :: status2 :: rest2) = (w2, (None, None)) ->
  round_trips (set_Status (decoded stored) status1) ->
  exists w2',
    UpdateLoanApplication w (id :: status2 :: rest2) = (w2', (None, None)) /\
    ledger w2 = ledger w2'.
Proof.
  intros Hstored Hfirst Hsecond Hcodec.
  destruct (UpdateLoanApplication_success _ _ _ _ _ _ Hstored Hfirst)
    as (out1 & Hencode1 & ->).
  assert (Hstored1 : ledger (emit (store w id (content out1)) "evtSender"
                               (list_byte_of_string (updateNotice id))) !! id
                     = Some (content out1)) by (cbn; apply lookup_insert_eq).
  rewrite (UpdateLoanApplication_World _ _ _ _ _ Hstored1) in Hsecond.
  rewrite (Hcodec out1 Hencode1) in Hsecond.
  change (set_Status (set_Status (decoded stored) status1) status2)
    with (set_Status (decoded stored) status2) in Hsecond.
  rewrite (UpdateLoanApplication_World _ _ _ _ _ Hstored).
  destruct (json_Marshal (set_Status (decoded stored) status2)) as [out2 [e |]];
    [discriminate |].
  cbn [put_refused event_refused emit store] in Hsecond.
  destruct (put_refused w id (content out2)); [discriminate |]. cbn zeta in *.
  destruct (event_refused w "evtSender" _); [discriminate |].
  injection Hsecond as <-. eexists. split; [reflexivity |].
  cbn. apply insert_insert_eq.
Qed.

(** X14: a creation dispatched by [Invoke], an update of the same id and a
    read through [Query], the first two successful: the read returns the
    encoding of the record that the decoding makes of the bytes created,
    with the status of the update. *)
Theorem Create_Update_Read (w w1 w2 : World) (id record status : string)
    (rest1 rest2 : list string) :
  Invoke w "CreateLoanApplication" (id :: record :: rest1) = (w1, Some (None, None)) ->
  UpdateLoanApplication w1 (id :: status :: rest2) = (w2, (None, None)) ->
  exists out,
    json_Marshal (set_Status (decoded (list_byte_of_string record)) status) = (out, None) /\
    Query w2 "GetLoanApplication" [id] = (w2, (Some (content out), None)).
Proof.
  intros Hcreate Hupdate.
  assert (Hstored : ledger w1 !! id = Some (list_byte_of_string record)).
  { unfold Invoke in Hcreate. cbn [String.eqb Ascii.eqb Bool.eqb] in Hcreate.
    destruct (GetCertAttribute w "username") as [username eu].
    destruct (GetCertAttribute w "role") as [role er].
    destruct (String.eqb role "Bank_Home_Loan_Admin"); [| discriminate].
    destruct (CreateLoanApplication w (id :: record :: rest1)) as [w' r] eqn:Hc.
    injection Hcreate as -> ->.
    apply CreateLoanApplication_success in Hc. subst w1. cbn. apply lookup_insert_eq. }
  destruct (UpdateLoanApplication_success _ _ _ _ _ _ Hstored Hupdate)
    as (out & Hencode & ->).
  exists out. split; [exact Hencode |].
  rewrite Query_GetLoanApplication.
  apply GetLoanApplication_value, World_get_present. cbn. apply lookup_insert_eq.
Qed.

End Sequences.

Lemma Update_twice_is_last_Update_witness :
  UpdateLoanApplication (codec := GoJSON.encoding_json) created_LA1 ["LA1"; "UnderReview"]
    = (reviewed_LA1, (None, None)) /\
  UpdateLoanApplication (codec := GoJSON.encoding_json) reviewed_LA1 ["LA1"; "Approved"]
    = (approved_after_review_LA1, (None, None)) /\
  UpdateLoanApplication (codec := GoJSON.encoding_json) created_LA1 ["LA1"; "Approved"]
    = (approved_LA1, (None, None)) /\
  ledger approved_after_review_LA1 = ledger approved_LA1.
Proof.
  assert (Hfirst : UpdateLoanApplication (codec := GoJSON.encoding_json) created_LA1
                     ["LA1"; "UnderReview"] = (reviewed_LA1, (None, None)))
    by (vm_compute; reflexivity).
  assert (Hsecond : UpdateLoanApplication (codec := GoJSON.encoding_json) reviewed_LA1
                      ["LA1"; "Approved"] = (approved_after_review_LA1, (None, None)))
    by (vm_compute; reflexivity).
  assert (Hsingle : UpdateLoanApplication (codec := GoJSON.encoding_json) created_LA1
                      ["LA1"; "Approved"] = (approved_LA1, (None, None)))
    by (vm_compute; reflexivity).
  destruct (Update_twice_is_last_Update (codec := GoJSON.encoding_json) created_LA1
              reviewed_LA1 approved_after_review_LA1 "LA1" "UnderReview" "Approved" [] []
              (list_byte_of_string submitted_LA1))
    as (w2' & Hsingle' & Hledger).
  - vm_compute; reflexivity.
  - exact Hfirst.
  - exact Hsecond.
  - intros out Hencode. vm_compute in Hencode. injection Hencode as <-.
    vm_compute; reflexivity.
  - rewrite Hsingle in Hsingle'. injection Hsingle' as <-.
    split; [exact Hfirst |]. split; [exact Hsecond |]. split; [exact Hsingle | exact Hledger].
Defined.

Lemma Create_Update_Read_witness :
  Query approved_LA1 "GetLoanApplication" ["LA1"]
    = (approved_LA1, (bytes_of (blank_record "LA1" "Approved"), None)).
Proof.
  destruct (Create_Update_Read (codec := GoJSON.encoding_json) home_loan_admin created_LA1
              approved_LA1 "LA1" submitted_LA1 "Approved" [] [])
    as (out & Hencode & Hread); [vm_compute; reflexivity | vm_compute; reflexivity |].
  vm_compute in Hencode. injection Hencode as <-. exact Hread.
Defined.

(** *** The schema *)

(** X15: over the JSON codec, decoding the encoding of a record whose
    integers fit a Go [int] gives the record back with no error, whatever the
    struct held before: the member names of the three structs are kept apart
    by the decoder, and strings and integers survive their escaping and
    printing. *)
Theorem LoanApplication_JSON_round_trip (la before : LoanApplication) :
  GoJSON.ints_in_range la ->
  GoJSON.Unmarshal (fst (GoJSON.Marshal la)) before = (la, None).
Proof. apply GoJSONFacts.Unmarshal_Marshal. Qed.

Lemma LoanApplication_JSON_round_trip_witness :
  GoJSON.Unmarshal (fst (GoJSON.Marshal sample_application)) zeroLoanApplication
    = (sample_application, None).
Proof.
  apply (LoanApplication_JSON_round_trip sample_application zeroLoanApplication).
  unfold GoJSON.ints_in_range, GoJSON.int64. cbn. lia.
Defined.
